(** * SMASH scrap auction: the workflow engine of [src/app.js]

    A shallow embedding of the "DB operations" block of [app.js]
    (lines 67-234) together with the JavaScript built-ins it relies on,
    followed by the properties of the box / auction / bid state machine.

    Conventions of the embedding.
    - The document [db] is mutated in place by the script; here every
      operation takes the document and returns the new document together
      with the returned object literal ([{ error }] or the payload).
    - [Array.prototype.find] is [List.find]; a mutation of the object that
      [find] returned is [update_first] with the same predicate.
    - [Math.random] and [new Date()] are inputs of the operation that
      consumes them (the random suffix [rnd], the time stamp [now]).
    - [saveDb] writes [localStorage], which no operation reads back; it is
      left out of the document model.
    - JavaScript numbers are IEEE 754 binary64 values: Rocq's primitive
      [float]. *)

From Stdlib Require Import String Ascii List ZArith Lia Bool Arith.
From Stdlib Require Import Floats.
Import ListNotations.

Local Open Scope string_scope.
Local Open Scope list_scope.

(** ** JavaScript built-ins used by the engine *)

Module JS.

(** The values that can sit in the [offers] object handed to [submitBid]. *)
Inductive value :=
| Undefined
| Null
| Bool (b : bool)
| Num (f : float)
| Str (s : string).

(** [ToBoolean] on numbers: [0], [-0] and [NaN] are falsy. *)
Definition truthy_num (f : float) : bool :=
  negb (PrimFloat.is_nan f || PrimFloat.eqb f 0%float).

(** [ToBoolean] on strings: only the empty string is falsy. *)
Definition truthy_str (s : string) : bool :=
  match s with EmptyString => false | String _ _ => true end.

Definition truthy (v : value) : bool :=
  match v with
  | Undefined | Null => false
  | Bool b => b
  | Num f => truthy_num f
  | Str s => truthy_str s
  end.

(** [x || d] for a property that is absent ([None]) or a number. *)
Definition or_num (x : option float) (d : float) : float :=
  match x with
  | Some f => if truthy_num f then f else d
  | None => d
  end.

(** [x || d] for a property that is absent or a string. *)
Definition or_str (x : option string) (d : string) : string :=
  match x with
  | Some s => if truthy_str s then s else d
  | None => d
  end.

(** [x || d] for a property that is absent or an array (arrays are
    always truthy). *)
Definition or_arr {A : Type} (x : option (list A)) (d : list A) : list A :=
  match x with Some l => l | None => d end.

(** [!!x] for a property that is absent or a boolean. *)
Definition to_bool (x : option bool) : bool :=
  match x with Some b => b | None => false end.

(** [ToBoolean] of an optional string property. *)
Definition truthy_ostr (x : option string) : bool :=
  match x with Some s => truthy_str s | None => false end.

(** [ToNumber] of a property that is absent or a number:
    [undefined] becomes [NaN]. *)
Definition to_num (x : option float) : float :=
  match x with Some f => f | None => PrimFloat.nan end.

(** [String.prototype.toLowerCase], on the ASCII letters. *)
Definition lower_ascii (c : ascii) : ascii :=
  let n := nat_of_ascii c in
  if (65 <=? n)%nat && (n <=? 90)%nat then ascii_of_nat (n + 32) else c.

Fixpoint toLowerCase (s : string) : string :=
  match s with
  | EmptyString => EmptyString
  | String c r => String (lower_ascii c) (toLowerCase r)
  end.

(** [s.slice(-n)]: the last [n] characters of [s]. *)
Definition slice_last (n : nat) (s : string) : string :=
  substring (String.length s - n) n s.

(** *** [parseFloat]

    ECMAScript's [parseFloat]: skip leading white space, take the longest
    prefix that is a [StrDecimalLiteral], and round its mathematical
    value to the nearest binary64 (ties to even); [NaN] when there is no
    such prefix.  White space is recognised on the ASCII range. *)

Definition is_space (c : ascii) : bool :=
  let n := nat_of_ascii c in
  (n =? 32)%nat || ((9 <=? n)%nat && (n <=? 13)%nat).

Definition digit_of (c : ascii) : option Z :=
  let n := nat_of_ascii c in
  if (48 <=? n)%nat && (n <=? 57)%nat then Some (Z.of_nat (n - 48)) else None.

Fixpoint skip_space (s : string) : string :=
  match s with
  | String c r => if is_space c then skip_space r else s
  | EmptyString => s
  end.

(** Reads a maximal run of decimal digits: the number read so far, the
    count of digits read, and the rest of the input. *)
Fixpoint read_digits (acc : Z) (cnt : nat) (s : string) : Z * nat * string :=
  match s with
  | String c r =>
      match digit_of c with
      | Some d => read_digits (10 * acc + d) (S cnt) r
      | None => (acc, cnt, s)
      end
  | EmptyString => (acc, cnt, s)
  end.

(** The optional [ExponentPart]: [e] or [E], an optional sign and at
    least one digit; [0] when the input does not continue with one. *)
Definition read_exponent (s : string) : Z :=
  match s with
  | String c r =>
      if (c =? "e")%char || (c =? "E")%char then
        let '(neg, r') :=
          match r with
          | String "-" r' => (true, r')
          | String "+" r' => (false, r')
          | _ => (false, r)
          end in
        let '(e, cnt, _) := read_digits 0 0 r' in
        match cnt with
        | O => 0%Z
        | S _ => if neg then (- e)%Z else e
        end
      else 0%Z
  | EmptyString => 0%Z
  end.

(** [m * 10 ^ e10] rounded to the nearest binary64, ties to even: the
    quotient is scaled to more than 53 bits and its remainder is kept
    as the rounding location. *)
Definition round_decimal (neg : bool) (m : Z) (e10 : Z) : float :=
  match m with
  | Z0 => if neg then PrimFloat.neg_zero else PrimFloat.zero
  | _ =>
      let num := (m * 10 ^ Z.max e10 0)%Z in
      let den := (10 ^ Z.max (- e10) 0)%Z in
      let s := Z.max 0 (55 + Z.log2_up den - Z.log2 num)%Z in
      let n := (num * 2 ^ s)%Z in
      let q := (n / den)%Z in
      let r := (n mod den)%Z in
      let loc := if (r =? 0)%Z then loc_Exact
                 else loc_Inexact (Z.compare (2 * r) den) in
      SF2Prim (binary_round_aux prec emax neg q (- s) loc)
  end.

Definition parseFloat_unsigned (neg : bool) (s : string) : float :=
  if String.prefix "Infinity" s then
    (if neg then PrimFloat.neg_infinity else PrimFloat.infinity)
  else
    let '(ip, icnt, r1) := read_digits 0 0 s in
    match r1 with
    | String "." r2 =>
        let '(m, fcnt, r3) := read_digits ip 0 r2 in
        match icnt, fcnt with
        | O, O => PrimFloat.nan
        | _, _ => round_decimal neg m (read_exponent r3 - Z.of_nat fcnt)
        end
    | _ =>
        match icnt with
        | O => PrimFloat.nan
        | S _ => round_decimal neg ip (read_exponent r1)
        end
    end.

Definition parseFloat_str (s : string) : float :=
  match skip_space s with
  | String "-" r => parseFloat_unsigned true r
  | String "+" r => parseFloat_unsigned false r
  | t => parseFloat_unsigned false t
  end.

(** [parseFloat(v)] is [parseFloat_str (ToString v)].  For a number the
    string is the shortest decimal that reads back as the same number,
    so a truthy number is returned as it is ([-0] prints as ["0"]). *)
Definition parseFloat (v : value) : float :=
  match v with
  | Undefined => parseFloat_str "undefined"
  | Null => parseFloat_str "null"
  | Bool true => parseFloat_str "true"
  | Bool false => parseFloat_str "false"
  | Num f => if PrimFloat.eqb f 0%float then PrimFloat.zero else f
  | Str s => parseFloat_str s
  end.

(** [v || d] on values. *)
Definition or_val (v d : value) : value := if truthy v then v else d.

(** An object used as a map from property names to values: its own
    properties in enumeration order. *)
Definition object := list (string * value).

(** [Object.keys(o)] *)
Definition keys (o : object) : list string := map fst o.

(** [o[k]]: [undefined] when [o] has no property [k]. *)
Fixpoint get (o : object) (k : string) : value :=
  match o with
  | [] => Undefined
  | (k', v) :: r => if k' =? k then v else get r k
  end.

(** [makeId(prefix)]: the prefix, a dash, and the random suffix
    [Math.random().toString(36).substr(2, 9)], here the input [rnd]. *)
Definition makeId (prefix rnd : string) : string :=
  prefix ++ "-" ++ rnd.

End JS.

(** ** The document *)

Module User.
Record t := mk {
  id : string; username : string; password : string; name : string;
  role : string; parentId : string; trustLevel : Z }.
End User.

Module Part.
Record t := mk {
  id : string; name : string; photos : list string; fill : float;
  vin : string; year : string; make : string; model : string;
  trim : string; partNumber : string; notes : string }.

(** The [part] argument of [addPart]: every property may be absent. *)
Record input := mk_input {
  in_name : option string; in_photos : option (list string);
  in_fill : option float; in_vin : option string; in_year : option string;
  in_make : option string; in_model : option string;
  in_trim : option string; in_partNumber : option string;
  in_notes : option string }.
End Part.

Module Box.
Record t := mk {
  id : string; sellerId : string; packageName : string; material : string;
  saleUnit : string; count : float; gross : float; tare : float;
  net : float; photos : list string; status : string;
  parts : list Part.t }.

(** The [data] argument of [createBox]. *)
Record input := mk_input {
  in_packageName : option string; in_material : option string;
  in_saleUnit : option string; in_count : option float;
  in_gross : option float; in_tare : option float; in_net : option float;
  in_photos : option (list string) }.

(** [box.status = s] *)
Definition set_status (s : string) (b : t) : t :=
  mk (id b) (sellerId b) (packageName b) (material b) (saleUnit b)
     (count b) (gross b) (tare b) (net b) (photos b) s (parts b).

(** [box.material = m] *)
Definition set_material (m : string) (b : t) : t :=
  mk (id b) (sellerId b) (packageName b) m (saleUnit b)
     (count b) (gross b) (tare b) (net b) (photos b) (status b) (parts b).

(** [box.parts.push(p)] *)
Definition push_part (p : Part.t) (b : t) : t :=
  mk (id b) (sellerId b) (packageName b) (material b) (saleUnit b)
     (count b) (gross b) (tare b) (net b) (photos b) (status b)
     (parts b ++ [p]).
End Box.

Module Auction.
Record t := mk {
  id : string; sellerId : string; title : string; shipping : list string;
  forkliftOnSite : bool; paymentTerms : list string;
  boxIds : list string; status : string; bids : list string }.

(** The [data] argument of [createAuction]. *)
Record input := mk_input {
  in_title : option string; in_shipping : option (list string);
  in_forkliftOnSite : option bool; in_paymentTerms : option (list string);
  in_boxIds : list string }.

(** [auction.status = s] *)
Definition set_status (s : string) (a : t) : t :=
  mk (id a) (sellerId a) (title a) (shipping a) (forkliftOnSite a)
     (paymentTerms a) (boxIds a) s (bids a).

(** [auction.bids.push(bidId)] *)
Definition push_bid (bidId : string) (a : t) : t :=
  mk (id a) (sellerId a) (title a) (shipping a) (forkliftOnSite a)
     (paymentTerms a) (boxIds a) (status a) (bids a ++ [bidId]).
End Auction.

Module LineOffer.
Record t := mk { partId : string; amount : float }.
End LineOffer.

Module Bid.
Record t := mk {
  id : string; auctionId : string; buyerId : string;
  lineOffers : list LineOffer.t; total : float; status : string;
  sellerApproved : bool; adminApproved : bool }.

(** [bid.status = s] *)
Definition set_status (s : string) (b : t) : t :=
  mk (id b) (auctionId b) (buyerId b) (lineOffers b) (total b) s
     (sellerApproved b) (adminApproved b).

(** [bid.sellerApproved = v] *)
Definition set_sellerApproved (v : bool) (b : t) : t :=
  mk (id b) (auctionId b) (buyerId b) (lineOffers b) (total b) (status b)
     v (adminApproved b).

(** [bid.adminApproved = v] *)
Definition set_adminApproved (v : bool) (b : t) : t :=
  mk (id b) (auctionId b) (buyerId b) (lineOffers b) (total b) (status b)
     (sellerApproved b) v.
End Bid.

Module Ledger.
Record t := mk {
  id : string; sellerId : string; buyerId : string; auctionId : string;
  total : float; date : string }.
End Ledger.

Module Db.
Record t := mk {
  users : list User.t; boxes : list Box.t; auctions : list Auction.t;
  bids : list Bid.t; ledger : list Ledger.t }.

Definition set_users (v : list User.t) (d : t) : t :=
  mk v (boxes d) (auctions d) (bids d) (ledger d).
Definition set_boxes (v : list Box.t) (d : t) : t :=
  mk (users d) v (auctions d) (bids d) (ledger d).
Definition set_auctions (v : list Auction.t) (d : t) : t :=
  mk (users d) (boxes d) v (bids d) (ledger d).
Definition set_bids (v : list Bid.t) (d : t) : t :=
  mk (users d) (boxes d) (auctions d) v (ledger d).
Definition set_ledger (v : list Ledger.t) (d : t) : t :=
  mk (users d) (boxes d) (auctions d) (bids d) v.

(** The fresh document of [loadDb]. *)
Definition empty : t := mk [] [] [] [] [].
End Db.

(** What an operation returns: [{ error: msg }] or its payload. *)
Inductive result (A : Type) : Type :=
| Err (msg : string)
| Ok (a : A).
Arguments Err {A} msg.
Arguments Ok {A} a.

Definition is_ok {A : Type} (r : result A) : bool :=
  match r with Ok _ => true | Err _ => false end.

(** The first element accepted by [p] is replaced by its image under [f]:
    the effect of assigning to properties of the object that
    [l.find(p)] returned. *)
Fixpoint update_first {A : Type} (p : A -> bool) (f : A -> A) (l : list A)
  : list A :=
  match l with
  | [] => []
  | x :: r => if p x then f x :: r else x :: update_first p f r
  end.

(** ** The operations ([app.js], "DB operations") *)

(** The [error] strings of the script, under the names the specification
    gives to the failures. *)
Definition DuplicateUsername : string := "Username already exists".
Definition BoxNotFound : string := "Box not found".
Definition InvalidBoxState : string := "Cannot modify box in auction or sold".
Definition dquote : string := String (ascii_of_nat 34) EmptyString.
Definition MaterialMismatch (material : string) : string :=
  "Box is locked to material " ++ dquote ++ material ++ dquote.
Definition EmptyBox : string := "Add at least one part before finalising".
Definition InvalidState : string := "Box already finalised or in auction".
Definition AuctionBoxNotFound (bxId : string) : string :=
  "Box " ++ bxId ++ " not found".
Definition BoxNotReady (bxId : string) : string :=
  "Box " ++ bxId ++ " not ready for auction".
Definition AuctionNotFound : string := "Auction not found".
Definition EmptyBid : string := "Enter at least one offer amount".
Definition BidNotFound : string := "Bid not found".
Definition PreconditionFailed : string := "Bid must be seller accepted first".

(** [db.boxes.find(b => b.id === boxId)] and its siblings. *)
Definition is_box (boxId : string) (b : Box.t) : bool := Box.id b =? boxId.
Definition is_auction (auctionId : string) (a : Auction.t) : bool :=
  Auction.id a =? auctionId.
Definition is_bid (bidId : string) (b : Bid.t) : bool := Bid.id b =? bidId.

Definition find_box (db : Db.t) (boxId : string) : option Box.t :=
  find (is_box boxId) (Db.boxes db).
Definition find_auction (db : Db.t) (auctionId : string) : option Auction.t :=
  find (is_auction auctionId) (Db.auctions db).
Definition find_bid (db : Db.t) (bidId : string) : option Bid.t :=
  find (is_bid bidId) (Db.bids db).

(** [createUser], lines 68-76. *)
Definition createUser (db : Db.t) (rnd : string)
  (username password name role : string) (parentId : option string)
  : Db.t * result (option User.t) :=
  match find (fun u => User.username u =? username) (Db.users db) with
  | Some _ => (db, Err DuplicateUsername)
  | None =>
      let id := JS.makeId "USR" rnd in
      let u := User.mk id username password name role
                 (JS.or_str parentId "") 0%Z in
      let db' := Db.set_users (Db.users db ++ [u]) db in
      (db', Ok (find (fun u => User.id u =? id) (Db.users db')))
  end.

(** [initDemo], lines 54-63: seeds the three demo accounts. *)
Definition initDemo (db : Db.t) (r1 r2 r3 : string) : Db.t :=
  match Db.users db with
  | _ :: _ => db
  | [] =>
      let adminId := JS.makeId "USR" r1 in
      let managerId := JS.makeId "USR" r2 in
      let operatorId := JS.makeId "USR" r3 in
      Db.set_users
        [ User.mk adminId "admin" "admin" "Administrator" "admin" "" 5%Z;
          User.mk managerId "manager" "manager" "Manager" "seller" adminId 3%Z;
          User.mk operatorId "operator" "operator" "Operator" "buyer"
            managerId 0%Z ] db
  end.

(** [createBox], lines 79-99. *)
Definition createBox (db : Db.t) (rnd : string) (sellerId : string)
  (data : Box.input) : Db.t * result Box.t :=
  let id := JS.makeId "BOX" rnd in
  let net := JS.or_num (Box.in_net data)
               (JS.to_num (Box.in_gross data) - JS.to_num (Box.in_tare data))%float in
  let box := Box.mk id sellerId
               (JS.or_str (Box.in_packageName data) "")
               (JS.or_str (Box.in_material data) "")
               (JS.or_str (Box.in_saleUnit data) "LB")
               (JS.or_num (Box.in_count data) 0)
               (JS.or_num (Box.in_gross data) 0)
               (JS.or_num (Box.in_tare data) 0)
               (JS.or_num (Some net) 0)
               (JS.or_arr (Box.in_photos data) [])
               "WIP" [] in
  (Db.set_boxes (Db.boxes db ++ [box]) db, Ok box).

(** [addPart], lines 102-127. *)
Definition addPart (db : Db.t) (rnd : string) (boxId : string)
  (part : Part.input) : Db.t * result Part.t :=
  match find_box db boxId with
  | None => (db, Err BoxNotFound)
  | Some box =>
      if negb (Box.status box =? "WIP") && negb (Box.status box =? "FINISHED")
      then (db, Err InvalidBoxState)
      else if JS.truthy_str (Box.material box)
              && JS.truthy_ostr (Part.in_name part)
              && negb (JS.toLowerCase (JS.or_str (Part.in_name part) "")
                       =? JS.toLowerCase (Box.material box))
      then (db, Err (MaterialMismatch (Box.material box)))
      else
        let material' :=
          if negb (JS.truthy_str (Box.material box))
             && JS.truthy_ostr (Part.in_name part)
          then JS.or_str (Part.in_name part) ""
          else Box.material box in
        let id := JS.makeId "PRT" rnd in
        let newPart := Part.mk id
                         (JS.or_str (Part.in_name part) "")
                         (JS.or_arr (Part.in_photos part) [])
                         (JS.or_num (Part.in_fill part) 0)
                         (JS.or_str (Part.in_vin part) "")
                         (JS.or_str (Part.in_year part) "")
                         (JS.or_str (Part.in_make part) "")
                         (JS.or_str (Part.in_model part) "")
                         (JS.or_str (Part.in_trim part) "")
                         (JS.or_str (Part.in_partNumber part) "")
                         (JS.or_str (Part.in_notes part) "") in
        let upd b := Box.push_part newPart (Box.set_material material' b) in
        (Db.set_boxes (update_first (is_box boxId) upd (Db.boxes db)) db,
         Ok newPart)
  end.

(** [finalizeBox], lines 130-138. *)
Definition finalizeBox (db : Db.t) (boxId : string) : Db.t * result Box.t :=
  match find_box db boxId with
  | None => (db, Err BoxNotFound)
  | Some box =>
      match Box.parts box with
      | [] => (db, Err EmptyBox)
      | _ :: _ =>
          if negb (Box.status box =? "WIP") then (db, Err InvalidState)
          else
            (Db.set_boxes
               (update_first (is_box boxId) (Box.set_status "FINISHED")
                  (Db.boxes db)) db,
             Ok (Box.set_status "FINISHED" box))
      end
  end.

(** [setBoxStatus], lines 141-146. *)
Definition setBoxStatus (db : Db.t) (boxId : string) (status : string) : Db.t :=
  Db.set_boxes
    (update_first (is_box boxId) (Box.set_status status) (Db.boxes db)) db.

(** The validation loop of [createAuction], lines 151-155: the error of
    the first box that is missing or not [FINISHED], if any. *)
Fixpoint validate_boxes (db : Db.t) (boxIds : list string) : option string :=
  match boxIds with
  | [] => None
  | bxId :: rest =>
      match find_box db bxId with
      | None => Some (AuctionBoxNotFound bxId)
      | Some bx =>
          if negb (Box.status bx =? "FINISHED") then Some (BoxNotReady bxId)
          else validate_boxes db rest
      end
  end.

(** [ids.forEach(bx => setBoxStatus(db, bx, status))] *)
Definition setBoxStatus_all (db : Db.t) (ids : list string) (status : string)
  : Db.t :=
  fold_left (fun d bx => setBoxStatus d bx status) ids db.

(** [createAuction], lines 149-173. *)
Definition createAuction (db : Db.t) (rnd : string) (sellerId : string)
  (data : Auction.input) : Db.t * result Auction.t :=
  match validate_boxes db (Auction.in_boxIds data) with
  | Some e => (db, Err e)
  | None =>
      let id := JS.makeId "AUC" rnd in
      let auction := Auction.mk id sellerId
                       (JS.or_str (Auction.in_title data)
                          ("Auction " ++ JS.slice_last 5 id))
                       (JS.or_arr (Auction.in_shipping data) [])
                       (JS.to_bool (Auction.in_forkliftOnSite data))
                       (JS.or_arr (Auction.in_paymentTerms data) [])
                       (Auction.in_boxIds data)
                       "IN_AUCTION" [] in
      let db1 := Db.set_auctions (Db.auctions db ++ [auction]) db in
      (setBoxStatus_all db1 (Auction.boxIds auction) "IN_AUCTION", Ok auction)
  end.

(** The reducer of [submitBid], line 180:
    [(sum, o) => sum + (isNaN(o.amount) ? 0 : o.amount)]. *)
Definition add_offer (sum : float) (o : LineOffer.t) : float :=
  (sum + (if PrimFloat.is_nan (LineOffer.amount o) then 0
          else LineOffer.amount o))%float.

(** Line 179: one line offer per key of [offers], its amount
    [parseFloat(offers[pid] || 0)]. *)
Definition build_lineOffers (offers : JS.object) : list LineOffer.t :=
  map (fun pid =>
         LineOffer.mk pid
           (JS.parseFloat (JS.or_val (JS.get offers pid) (JS.Num 0))))
      (JS.keys offers).

(** Line 180: [lineOffers.reduce(add_offer, 0)]. *)
Definition sum_offers (lineOffers : list LineOffer.t) : float :=
  fold_left add_offer lineOffers 0%float.

(** [submitBid], lines 176-197. *)
Definition submitBid (db : Db.t) (rnd : string) (buyerId auctionId : string)
  (offers : JS.object) : Db.t * result Bid.t :=
  match find_auction db auctionId with
  | None => (db, Err AuctionNotFound)
  | Some auction =>
      let lineOffers := build_lineOffers offers in
      let total := sum_offers lineOffers in
      if PrimFloat.leb total 0 then (db, Err EmptyBid)
      else
        let id := JS.makeId "BID" rnd in
        let bid := Bid.mk id auctionId buyerId lineOffers total "SUBMITTED"
                     false false in
        let db1 := Db.set_bids (Db.bids db ++ [bid]) db in
        (Db.set_auctions
           (update_first (is_auction auctionId) (Auction.push_bid (Bid.id bid))
              (Db.auctions db1)) db1,
         Ok bid)
  end.

(** [setBidSellerStatus], lines 200-211. *)
Definition setBidSellerStatus (db : Db.t) (bidId : string) (approve : bool)
  : Db.t * result Bid.t :=
  match find_bid db bidId with
  | None => (db, Err BidNotFound)
  | Some bid =>
      let upd b :=
        if approve
        then Bid.set_sellerApproved true (Bid.set_status "SELLER_ACCEPTED" b)
        else Bid.set_status "SELLER_REJECTED" b in
      (Db.set_bids (update_first (is_bid bidId) upd (Db.bids db)) db,
       Ok (upd bid))
  end.

(** [setBidAdminStatus], lines 214-234. *)
Definition setBidAdminStatus (db : Db.t) (rnd now : string) (bidId : string)
  (approve : bool) : Db.t * result Bid.t :=
  match find_bid db bidId with
  | None => (db, Err BidNotFound)
  | Some bid =>
      if negb (Bid.status bid =? "SELLER_ACCEPTED")
      then (db, Err PreconditionFailed)
      else
        match find_auction db (Bid.auctionId bid) with
        | None => (db, Err AuctionNotFound)
        | Some auction =>
            if approve then
              let upd b :=
                Bid.set_adminApproved true (Bid.set_status "ADMIN_APPROVED" b) in
              let db1 :=
                Db.set_bids (update_first (is_bid bidId) upd (Db.bids db)) db in
              let db2 :=
                Db.set_auctions
                  (update_first (is_auction (Bid.auctionId bid))
                     (Auction.set_status "SOLD") (Db.auctions db1)) db1 in
              let db3 := setBoxStatus_all db2 (Auction.boxIds auction) "SOLD" in
              let sellerId := Auction.sellerId auction in
              let txId := JS.makeId "TX" rnd in
              let entry := Ledger.mk txId sellerId (Bid.buyerId bid)
                             (Auction.id auction) (Bid.total bid) now in
              (Db.set_ledger (Db.ledger db3 ++ [entry]) db3, Ok (upd bid))
            else
              let upd b := Bid.set_status "ADMIN_REJECTED" b in
              (Db.set_bids (update_first (is_bid bidId) upd (Db.bids db)) db,
               Ok (upd bid))
        end
  end.

(** The ledger entry written by an approval (line 228). *)
Definition settlement (rnd now : string) (auction : Auction.t) (bid : Bid.t)
  : Ledger.t :=
  Ledger.mk (JS.makeId "TX" rnd) (Auction.sellerId auction) (Bid.buyerId bid)
    (Auction.id auction) (Bid.total bid) now.

(** ** Runs of the engine *)

(** One call of a workflow operation, with the random suffix and the time
    stamp it consumes. *)
Inductive Op :=
| CreateUser (rnd username password name role : string)
             (parentId : option string)
| CreateBox (rnd sellerId : string) (data : Box.input)
| AddPart (rnd boxId : string) (part : Part.input)
| FinalizeBox (boxId : string)
| CreateAuction (rnd sellerId : string) (data : Auction.input)
| SubmitBid (rnd buyerId auctionId : string) (offers : JS.object)
| SetBidSellerStatus (bidId : string) (approve : bool)
| SetBidAdminStatus (rnd now bidId : string) (approve : bool).

(** The document after the call, and whether the call succeeded. *)
Definition step (db : Db.t) (op : Op) : Db.t * bool :=
  match op with
  | CreateUser rnd u p n r par =>
      let '(d, r) := createUser db rnd u p n r par in (d, is_ok r)
  | CreateBox rnd s data =>
      let '(d, r) := createBox db rnd s data in (d, is_ok r)
  | AddPart rnd b part =>
      let '(d, r) := addPart db rnd b part in (d, is_ok r)
  | FinalizeBox b =>
      let '(d, r) := finalizeBox db b in (d, is_ok r)
  | CreateAuction rnd s data =>
      let '(d, r) := createAuction db rnd s data in (d, is_ok r)
  | SubmitBid rnd b a offers =>
      let '(d, r) := submitBid db rnd b a offers in (d, is_ok r)
  | SetBidSellerStatus b approve =>
      let '(d, r) := setBidSellerStatus db b approve in (d, is_ok r)
  | SetBidAdminStatus rnd now b approve =>
      let '(d, r) := setBidAdminStatus db rnd now b approve in (d, is_ok r)
  end.

(** The document after a sequence of calls. *)
Definition run (db : Db.t) (ops : list Op) : Db.t :=
  fold_left (fun d op => fst (step d op)) ops db.




(** How many of the calls selected by [sel] succeed along the run. *)
Fixpoint successes (sel : Op -> bool) (db : Db.t) (ops : list Op) : nat :=
  match ops with
  | [] => 0
  | op :: rest =>
      (if sel op && snd (step db op) then 1 else 0)
      + successes sel (fst (step db op)) rest
  end.


(** The document the application starts from: [loadDb] on an empty store,
    then [initDemo]. *)
Definition initial (r1 r2 r3 : string) : Db.t := initDemo Db.empty r1 r2 r3.

(** The call is an admin approval, of whichever bid. *)
Definition is_any_approval (op : Op) : bool :=
  match op with
  | SetBidAdminStatus _ _ _ true => true
  | _ => false
  end.




(** The total as the specification words it: the sum of the amount
    fields of the stored line items, added up in order. *)
Definition plain_sum (lineOffers : list LineOffer.t) : float :=
  fold_left (fun sum o => (sum + LineOffer.amount o)%float) lineOffers 0%float.

(** No stored amount is [NaN]. *)
Definition all_numeric (lineOffers : list LineOffer.t) : bool :=
  forallb (fun o => negb (PrimFloat.is_nan (LineOffer.amount o))) lineOffers.

(** An amount with [NaN] read as zero. *)
Definition nan_as_zero (f : float) : float :=
  if PrimFloat.is_nan f then 0%float else f.

(** [data.net] is supplied and truthy: the left operand of
    [data.net || (data.gross - data.tare)] is taken. *)
Definition net_taken (data : Box.input) : bool :=
  match Box.in_net data with
  | Some f => JS.truthy_num f
  | None => false
  end.

(** [data.gross - data.tare] *)
Definition gross_less_tare (data : Box.input) : float :=
  (JS.to_num (Box.in_gross data) - JS.to_num (Box.in_tare data))%float.




(** The documents reachable from the initial one. *)
Definition reachable (db : Db.t) : Prop :=
  exists r1 r2 r3 ops, db = run (initial r1 r2 r3) ops.
(** ** The end-to-end scenario *)

Module Scenario.

Definition box_data : Box.input :=
  Box.mk_input (Some "Lot 1") None None None
    (Some 100%float) (Some 10%float) None None.

(** The same box with a net weight supplied: 85, and 0. *)
Definition box_data_net : Box.input :=
  Box.mk_input (Some "Lot 1") None None None
    (Some 100%float) (Some 10%float) (Some 85%float) None.

Definition box_data_net0 : Box.input :=
  Box.mk_input (Some "Lot 1") None None None
    (Some 100%float) (Some 10%float) (Some 0%float) None.

Definition box_net0 : Box.t :=
  Box.mk "BOX-b1" "USR-m" "Lot 1" "" "LB" 0%float 100%float 10%float
    90%float [] "WIP" [].

Definition part_data : Part.input :=
  Part.mk_input (Some "Copper #1") None None None None None None None
    None None.

Definition auction_data : Auction.input :=
  Auction.mk_input None None None None ["BOX-b1"].

Definition offers : JS.object := [("PRT-p1", JS.Num 50%float)].

(** Seller creates, fills and finalises a box and lists it; the buyer
    bids 50; the seller accepts; the admin approves. *)
Definition ops : list Op :=
  [ CreateBox "b1" "USR-m" box_data;
    AddPart "p1" "BOX-b1" part_data;
    FinalizeBox "BOX-b1";
    CreateAuction "a1" "USR-m" auction_data;
    SubmitBid "d1" "USR-o" "AUC-a1" offers;
    SetBidSellerStatus "BID-d1" true;
    SetBidAdminStatus "t1" "2024-01-01T00:00:00.000Z" "BID-d1" true ].

Definition start : Db.t := initial "a" "m" "o".


Definition final : Db.t := run start ops.

(** The document once the seller has accepted the bid, and the bid and
    the auction as they stand in it. *)
Definition accepted : Db.t := run start (firstn 6 ops).

Definition bid : Bid.t :=
  Bid.mk "BID-d1" "AUC-a1" "USR-o" [LineOffer.mk "PRT-p1" 50%float]
    50%float "SELLER_ACCEPTED" true false.

Definition auction : Auction.t :=
  Auction.mk "AUC-a1" "USR-m" "Auction UC-a1" [] false [] ["BOX-b1"]
    "IN_AUCTION" ["BID-d1"].

(** The document once the box has its part, before it is finalised,
    and the box as it stands in it. *)
Definition filled : Db.t := run start (firstn 2 ops).

Definition part : Part.t :=
  Part.mk "PRT-p1" "Copper #1" [] 0%float "" "" "" "" "" "" "".

Definition box : Box.t :=
  Box.mk "BOX-b1" "USR-m" "Lot 1" "Copper #1" "LB" 0%float 100%float
    10%float 90%float [] "WIP" [part].





(** The document once the box is finalised, before it is listed. *)
Definition finished : Db.t := run start (firstn 3 ops).

(** A listing that names the finished box and an unknown one. *)
Definition bad_auction_data : Auction.input :=
  Auction.mk_input None None None None ["BOX-b1"; "BOX-zz"].

(** The document once the auction is listed, and the auction as it
    stands in it. *)
Definition listed : Db.t := run start (firstn 4 ops).

Definition listed_auction : Auction.t :=
  Auction.mk "AUC-a1" "USR-m" "Auction UC-a1" [] false [] ["BOX-b1"]
    "IN_AUCTION" [].

(** Offers with a non-numeric amount, with zero amounts only, and with
    no amount at all. *)
Definition mixed_offers : JS.object :=
  [("P1", JS.Num 10%float); ("P2", JS.Str "abc")].

Definition zero_offers : JS.object :=
  [("P1", JS.Num 0%float); ("P2", JS.Str "0")].

Definition mixed_bid : Bid.t :=
  Bid.mk "BID-d2" "AUC-a1" "USR-o"
    [LineOffer.mk "P1" 10%float; LineOffer.mk "P2" PrimFloat.nan]
    10%float "SUBMITTED" false false.

(** The document once the bid is submitted, before the seller acts. *)
Definition submitted : Db.t := run start (firstn 5 ops).

Definition submitted_bid : Bid.t :=
  Bid.mk "BID-d1" "AUC-a1" "USR-o" [LineOffer.mk "PRT-p1" 50%float]
    50%float "SUBMITTED" false false.

Definition approved_bid : Bid.t :=
  Bid.mk "BID-d1" "AUC-a1" "USR-o" [LineOffer.mk "PRT-p1" 50%float]
    50%float "ADMIN_APPROVED" true true.

End Scenario.


(** ** The session, the screens and their handlers *)

(** Writing a property of an object ([o[k] = v]), with JavaScript's
    enumeration order: array indices first, by value, then the other
    keys in the order they were created. *)
Module JSO.

(** An array index: the canonical decimal form of an integer below
    [2^32 - 1]. *)
Definition array_index (k : string) : option Z :=
  match JS.read_digits 0 0 k with
  | (n, S cnt, EmptyString) =>
      if (String.prefix "0" k && negb (k =? "0")) || (4294967295 <=? n)%Z
      then None else Some n
  | _ => None
  end.

(** [k] is already a property of [o]. *)
Definition has (o : JS.object) (k : string) : bool :=
  existsb (fun e => fst e =? k) o.

(** Overwrites the value of the existing property [k]. *)
Fixpoint replace (o : JS.object) (k : string) (v : JS.value) : JS.object :=
  match o with
  | [] => []
  | (k', v') :: r => if k' =? k then (k', v) :: r else (k', v') :: replace r k v
  end.

(** Places the new array index [n] before the first key that is a
    larger index or no index at all. *)
Fixpoint insert_index (o : JS.object) (n : Z) (k : string) (v : JS.value)
  : JS.object :=
  match o with
  | [] => [(k, v)]
  | (k', v') :: r =>
      match array_index k' with
      | Some n' =>
          if (n' <? n)%Z then (k', v') :: insert_index r n k v
          else (k, v) :: o
      | None => (k, v) :: o
      end
  end.

(** [o[k] = v] *)
Definition set (o : JS.object) (k : string) (v : JS.value) : JS.object :=
  if has o k then replace o k v
  else match array_index k with
       | Some n => insert_index o n k v
       | None => o ++ [(k, v)]
       end.

End JSO.

(** [sessionStorage], of which the script uses the one key
    [SESSION_KEY]: the stored user id, if any. *)
Definition session : Type := option string.

(** [getCurrentUser], lines 41-45. *)
Definition getCurrentUser (s : session) (db : Db.t) : option User.t :=
  match s with
  | None => None
  | Some id =>
      if JS.truthy_str id then find (fun u => User.id u =? id) (Db.users db)
      else None
  end.

(** [setCurrentUser], lines 48-51. *)
Definition setCurrentUser (user : option User.t) : session :=
  match user with
  | Some u => Some (User.id u)
  | None => None
  end.

(** The look-up of the login form, line 955, on the trimmed inputs. *)
Definition login (db : Db.t) (username password : string) : option User.t :=
  find (fun u => (User.username u =? username) && (User.password u =? password))
       (Db.users db).

(** The submit handler of the login form, lines 951-960: the session
    after the attempt. *)
Definition login_submit (s : session) (db : Db.t) (username password : string)
  : session :=
  match login db username password with
  | None => s
  | Some user => setCurrentUser (Some user)
  end.

(** The bids listed by [renderBidsReceived] for a seller, lines 670-672. *)
Definition bidsReceived (db : Db.t) (userId : string) : list Bid.t :=
  let sellerAuctions :=
    filter (fun a => Auction.sellerId a =? userId) (Db.auctions db) in
  let sellerBidIds := flat_map Auction.bids sellerAuctions in
  filter (fun b => existsb (String.eqb (Bid.id b)) sellerBidIds) (Db.bids db).

(** The bids listed by [renderApprovals], line 798. *)
Definition pendingApprovals (db : Db.t) : list Bid.t :=
  filter (fun b => Bid.status b =? "SELLER_ACCEPTED") (Db.bids db).

(** The auctions listed by [renderMarketplace], line 714. *)
Definition marketplace (db : Db.t) : list Auction.t :=
  filter (fun a => Auction.status a =? "IN_AUCTION") (Db.auctions db).

(** The boxes offered for listing by [renderSellerAuctions], line 603. *)
Definition finishedBoxes (db : Db.t) (userId : string) : list Box.t :=
  filter (fun b => (Box.sellerId b =? userId) && (Box.status b =? "FINISHED"))
         (Db.boxes db).

(** The counters of the seller's dashboard, lines 360-364. *)
Definition myBoxes (db : Db.t) (userId : string) : list Box.t :=
  filter (fun b => Box.sellerId b =? userId) (Db.boxes db).

Definition count_status (status : string) (boxes : list Box.t) : nat :=
  length (filter (fun b => Box.status b =? status) boxes).

(** The click handler of "Create Auction", lines 645-660.  [checked]
    tells which check boxes [sel-<box id>] are ticked; with none ticked
    the handler alerts and calls nothing ([None]). *)
Definition createAuction_click (db : Db.t) (rnd userId : string)
  (checked : string -> bool) (title : string) (shipping : list string)
  (forklift : bool) (paymentTerms : list string)
  : Db.t * option (result Auction.t) :=
  let finished := finishedBoxes db userId in
  let boxIds := map Box.id (filter (fun b => checked (Box.id b)) finished) in
  match boxIds with
  | [] => (db, None)
  | _ :: _ =>
      let '(db', res) :=
        createAuction db rnd userId
          (Auction.mk_input (Some title) (Some shipping) (Some forklift)
             (Some paymentTerms) boxIds) in
      (db', Some res)
  end.

(** The offers gathered by the click handler of "Submit Bid", lines
    758-763, from the inputs' [data-offer] keys and values. *)
Definition collect_offers (inputs : list (string * string)) : JS.object :=
  fold_left
    (fun offers inp =>
       let v := JS.parseFloat_str (snd inp) in
       if negb (PrimFloat.is_nan v) && PrimFloat.ltb 0 v
       then JSO.set offers (fst inp) (JS.Num v)
       else offers)
    inputs [].

(** The click handler of "Submit Bid", lines 757-767. *)
Definition submitBid_click (db : Db.t) (rnd userId auctionId : string)
  (inputs : list (string * string)) : Db.t * result Bid.t :=
  submitBid db rnd userId auctionId (collect_offers inputs).

(** The click handler of "Create" on the box form, lines 487-502, on the
    values read from the form; [files] are the data URLs of the chosen
    files. *)
Definition createBox_click (db : Db.t) (rnd userId : string)
  (pkgName material unit count gross tare : string) (files : list string)
  : Db.t * result Box.t :=
  let count := JS.or_num (Some (JS.parseFloat_str count)) 0 in
  let gross := JS.or_num (Some (JS.parseFloat_str gross)) 0 in
  let tare := JS.or_num (Some (JS.parseFloat_str tare)) 0 in
  let photos := firstn 5 files in
  createBox db rnd userId
    (Box.mk_input (Some pkgName) (Some material) (Some unit) (Some count)
       (Some gross) (Some tare) None (Some photos)).

(** ** Orders and invariants of the state machine *)

(** The place of a box status in the lifecycle
    WIP, FINISHED, IN_AUCTION, SOLD. *)
Definition box_rank (status : string) : nat :=
  if status =? "SOLD" then 3
  else if status =? "IN_AUCTION" then 2
  else if status =? "FINISHED" then 1
  else 0.

(** One of the four box statuses. *)
Definition box_status_ok (status : string) : bool :=
  (status =? "WIP") || (status =? "FINISHED") || (status =? "IN_AUCTION")
  || (status =? "SOLD").

(** [l] begins with [p]. *)
Definition is_prefix {A : Type} (p l : list A) : Prop :=
  exists s, l = p ++ s.


(** Every bid's auction id resolves. *)
Definition bids_resolve (db : Db.t) : Prop :=
  forall b, In b (Db.bids db) ->
    exists a, find_auction db (Bid.auctionId b) = Some a.

(** What may change in a box between two documents: the material only
    while it is empty, the status only forward, the parts only by
    appending; the rest is fixed. *)
Definition box_evolves (b b' : Box.t) : Prop :=
  Box.id b' = Box.id b
  /\ Box.sellerId b' = Box.sellerId b
  /\ Box.packageName b' = Box.packageName b
  /\ Box.saleUnit b' = Box.saleUnit b
  /\ Box.count b' = Box.count b
  /\ Box.gross b' = Box.gross b
  /\ Box.tare b' = Box.tare b
  /\ Box.net b' = Box.net b
  /\ Box.photos b' = Box.photos b
  /\ (Box.material b <> "" -> Box.material b' = Box.material b)
  /\ box_rank (Box.status b) <= box_rank (Box.status b')
  /\ is_prefix (Box.parts b) (Box.parts b').

(** What may change in an auction: the status, to SOLD only, and the
    bid list, by appending only. *)
Definition auction_evolves (a a' : Auction.t) : Prop :=
  Auction.id a' = Auction.id a
  /\ Auction.sellerId a' = Auction.sellerId a
  /\ Auction.title a' = Auction.title a
  /\ Auction.shipping a' = Auction.shipping a
  /\ Auction.forkliftOnSite a' = Auction.forkliftOnSite a
  /\ Auction.paymentTerms a' = Auction.paymentTerms a
  /\ Auction.boxIds a' = Auction.boxIds a
  /\ (Auction.status a' = Auction.status a \/ Auction.status a' = "SOLD")
  /\ is_prefix (Auction.bids a) (Auction.bids a').

(** What may change in a bid: the status, and each approval flag from
    false to true only. *)
Definition bid_evolves (b b' : Bid.t) : Prop :=
  Bid.id b' = Bid.id b
  /\ Bid.auctionId b' = Bid.auctionId b
  /\ Bid.buyerId b' = Bid.buyerId b
  /\ Bid.lineOffers b' = Bid.lineOffers b
  /\ Bid.total b' = Bid.total b
  /\ (Bid.sellerApproved b = true -> Bid.sellerApproved b' = true)
  /\ (Bid.adminApproved b = true -> Bid.adminApproved b' = true).

(** ** The buttons of the bid screens *)





(** ** Sample sessions *)

Module Desk.

(** The seeded administrator of the scenario. *)
Definition admin : User.t :=
  User.mk "USR-a" "admin" "admin" "Administrator" "admin" "" 5%Z.


(** The inputs of the bid form: one offer, one blank, one zero, one
    that is no number. *)
Definition inputs : list (string * string) :=
  [("PRT-p1", "50"); ("PRT-p2", ""); ("PRT-p3", "0"); ("PRT-p4", "abc")].

Definition form_bid : Bid.t :=
  Bid.mk "BID-d1" "AUC-a1" "USR-o" [LineOffer.mk "PRT-p1" 50%float]
    50%float "SUBMITTED" false false.

(** The check box of the finished box is ticked. *)
Definition ticked (boxId : string) : bool := boxId =? "BOX-b1".




End Desk.
(** ** The end-to-end scenario *)

(** The scenario of the specification: net 90, material adopted from the
    first part, box and auction sold, one ledger entry of total 50. *)
Example end_to_end :
  map (fun b => (Box.id b, Box.net b, Box.material b, Box.status b))
      (Db.boxes Scenario.final)
    = [("BOX-b1", 90%float, "Copper #1", "SOLD")]
  /\ map (fun a => (Auction.id a, Auction.status a, Auction.bids a))
       (Db.auctions Scenario.final)
     = [("AUC-a1", "SOLD", ["BID-d1"])]
  /\ map (fun b => (Bid.id b, Bid.total b, Bid.status b))
       (Db.bids Scenario.final)
     = [("BID-d1", 50%float, "ADMIN_APPROVED")]
  /\ Db.ledger Scenario.final
     = [Ledger.mk "TX-t1" "USR-m" "USR-o" "AUC-a1" 50%float
          "2024-01-01T00:00:00.000Z"].
Proof. vm_compute. repeat split. Qed.

(** The stages of the scenario are the documents the operations return. *)
Example scenario_stages :
  find_box Scenario.filled "BOX-b1" = Some Scenario.box
  /\ find_auction Scenario.listed "AUC-a1" = Some Scenario.listed_auction
  /\ find_bid Scenario.submitted "BID-d1" = Some Scenario.submitted_bid
  /\ find_bid Scenario.accepted "BID-d1" = Some Scenario.bid
  /\ find_auction Scenario.accepted "AUC-a1" = Some Scenario.auction
  /\ find_bid Scenario.final "BID-d1" = Some Scenario.approved_bid.
Proof. vm_compute. repeat split. Qed.

(** ** Lists: [find] against [update_first] *)

Section UpdateFirst.
Context {A : Type}.
Variables (p : A -> bool) (f : A -> A).

Lemma find_update_first_same (l : list A) :
  (forall x, p (f x) = p x) ->
  find p (update_first p f l) = option_map f (find p l).
Proof.
  intros Hp. induction l as [|x r IH]; simpl; [reflexivity|].
  destruct (p x) eqn:E; simpl.
  - now rewrite Hp, E.
  - now rewrite E.
Qed.

Lemma find_update_first_other (q : A -> bool) (l : list A) :
  (forall x, q (f x) = q x) ->
  (forall x, q x = true -> p x = false) ->
  find q (update_first p f l) = find q l.
Proof.
  intros Hq Hqp. induction l as [|x r IH]; simpl; [reflexivity|].
  destruct (p x) eqn:E; simpl.
  - rewrite Hq. destruct (q x) eqn:Q; [|reflexivity].
    apply Hqp in Q. congruence.
  - now rewrite IH.
Qed.

Lemma in_update_first (l : list A) (y : A) :
  In y (update_first p f l) -> In y l \/ exists x, In x l /\ p x = true /\ y = f x.
Proof.
  induction l as [|x r IH]; simpl; [tauto|].
  destruct (p x) eqn:E; simpl.
  - intros [<-|H]; [right; exists x; auto | left; auto].
  - intros [<-|H]; [left; auto|].
    destruct (IH H) as [H1|(z & H1 & H2 & H3)]; [left; auto|].
    right. exists z. auto.
Qed.
End UpdateFirst.

Lemma find_app {A : Type} (p : A -> bool) (l l' : list A) :
  find p (l ++ l') = match find p l with Some x => Some x | None => find p l' end.
Proof.
  induction l as [|x r IH]; simpl; [reflexivity|]. now destruct (p x).
Qed.

(** When keys are unique, updating the first match updates every match. *)
Lemma update_first_unique {A : Type} (key : A -> string) (a : string)
  (f : A -> A) (l : list A) :
  NoDup (map key l) ->
  update_first (fun x => key x =? a) f l
  = map (fun x => if key x =? a then f x else x) l.
Proof.
  induction l as [|x r IH]; simpl; [reflexivity|].
  intros H. inversion H as [|? ? Hx Hr]; subst.
  destruct (key x =? a) eqn:E.
  - f_equal. apply String.eqb_eq in E. subst a.
    clear IH H Hr. induction r as [|y r IH]; simpl; [reflexivity|].
    simpl in Hx. destruct (key y =? key x) eqn:E.
    + apply String.eqb_eq in E. exfalso. apply Hx. left. exact E.
    + f_equal. apply IH. intros H. apply Hx. right. exact H.
  - f_equal. now apply IH.
Qed.

(** ** Boxes under [setBoxStatus] *)

Lemma find_box_setBoxStatus_same db a s :
  find_box (setBoxStatus db a s) a = option_map (Box.set_status s) (find_box db a).
Proof.
  unfold find_box, setBoxStatus; simpl.
  now apply find_update_first_same.
Qed.

Lemma find_box_setBoxStatus_other db a b s :
  a <> b -> find_box (setBoxStatus db a s) b = find_box db b.
Proof.
  intros Hab. unfold find_box, setBoxStatus; simpl.
  apply find_update_first_other; [reflexivity|].
  intros x Hx. unfold is_box in *. apply String.eqb_eq in Hx.
  apply String.eqb_neq. congruence.
Qed.

Lemma setBoxStatus_all_cons db a ids s :
  setBoxStatus_all db (a :: ids) s = setBoxStatus_all (setBoxStatus db a s) ids s.
Proof. reflexivity. Qed.

Lemma find_box_all_notin ids : forall db a s,
  ~ In a ids -> find_box (setBoxStatus_all db ids s) a = find_box db a.
Proof.
  induction ids as [|x r IH]; intros db a s Hn; [reflexivity|].
  rewrite setBoxStatus_all_cons, IH by (intros H; apply Hn; now right).
  apply find_box_setBoxStatus_other. intros ->. apply Hn. now left.
Qed.

Lemma find_box_all_in ids : forall db a s,
  In a ids ->
  find_box (setBoxStatus_all db ids s) a
  = option_map (Box.set_status s) (find_box db a).
Proof.
  induction ids as [|x r IH]; intros db a s Hin; [destruct Hin|].
  rewrite setBoxStatus_all_cons.
  destruct (in_dec string_dec a r) as [Hr|Hr].
  - rewrite IH by exact Hr.
    destruct (string_dec x a) as [->|Hxa].
    + rewrite find_box_setBoxStatus_same. now destruct (find_box db a).
    + now rewrite find_box_setBoxStatus_other.
  - rewrite find_box_all_notin by exact Hr.
    destruct Hin as [->|Hin]; [|contradiction].
    apply find_box_setBoxStatus_same.
Qed.

(** [setBoxStatus] touches the boxes only. *)
Lemma setBoxStatus_all_frame ids : forall db s,
  Db.users (setBoxStatus_all db ids s) = Db.users db
  /\ Db.auctions (setBoxStatus_all db ids s) = Db.auctions db
  /\ Db.bids (setBoxStatus_all db ids s) = Db.bids db
  /\ Db.ledger (setBoxStatus_all db ids s) = Db.ledger db.
Proof.
  induction ids as [|x r IH]; intros db s; [repeat split|].
  rewrite setBoxStatus_all_cons.
  destruct (IH (setBoxStatus db x s) s) as (-> & -> & -> & ->).
  repeat split.
Qed.

Lemma setBoxStatus_all_bids ids db s :
  Db.bids (setBoxStatus_all db ids s) = Db.bids db.
Proof. apply setBoxStatus_all_frame. Qed.

Lemma setBoxStatus_all_ledger ids db s :
  Db.ledger (setBoxStatus_all db ids s) = Db.ledger db.
Proof. apply setBoxStatus_all_frame. Qed.

Lemma setBoxStatus_all_auctions ids db s :
  Db.auctions (setBoxStatus_all db ids s) = Db.auctions db.
Proof. apply setBoxStatus_all_frame. Qed.

(** With unique box ids the cascade reaches every box of the list. *)
Lemma setBoxStatus_all_unique ids : forall db s,
  NoDup (map Box.id (Db.boxes db)) ->
  Db.boxes (setBoxStatus_all db ids s)
  = map (fun b => if existsb (String.eqb (Box.id b)) ids
                  then Box.set_status s b else b) (Db.boxes db).
Proof.
  induction ids as [|x r IH]; intros db s Hnd.
  - simpl. now rewrite map_id.
  - rewrite setBoxStatus_all_cons, IH.
    + unfold setBoxStatus; simpl. unfold is_box.
      rewrite update_first_unique by exact Hnd.
      rewrite map_map. apply map_ext. intros b.
      destruct (Box.id b =? x) eqn:E; simpl.
      * now destruct (existsb _ r).
      * reflexivity.
    + unfold setBoxStatus; simpl. unfold is_box.
      rewrite update_first_unique by exact Hnd.
      rewrite map_map.
      erewrite map_ext; [exact Hnd|].
      intros b. now destruct (Box.id b =? x).
Qed.

(** ** Admin approval *)

Lemma find_auction_id db a auction :
  find_auction db a = Some auction -> Auction.id auction = a.
Proof.
  intros H. apply find_some in H. destruct H as [_ H].
  now apply String.eqb_eq in H.
Qed.

(** A successful approval leaves the bid resolvable, in status
    ADMIN_APPROVED. *)
Lemma setBidAdminStatus_ok
  (db : Db.t) (rnd now bidId : string) (bid : Bid.t) (auction : Auction.t) :
  find_bid db bidId = Some bid ->
  Bid.status bid = "SELLER_ACCEPTED" ->
  find_auction db (Bid.auctionId bid) = Some auction ->
  exists db' bid',
    setBidAdminStatus db rnd now bidId true = (db', Ok bid')
    /\ find_bid db' bidId = Some bid'
    /\ Bid.status bid' = "ADMIN_APPROVED".
Proof.
  intros Hb Hs Ha.
  unfold setBidAdminStatus. rewrite Hb, Hs, Ha. simpl negb. cbv iota.
  eexists _, _. split; [reflexivity|]. split; [|reflexivity].
  unfold find_bid. simpl.
  destruct (setBoxStatus_all_frame (Auction.boxIds auction)
    (Db.set_auctions
       (update_first (is_auction (Bid.auctionId bid)) (Auction.set_status "SOLD")
          (Db.auctions db))
       (Db.set_bids
          (update_first (is_bid bidId)
             (fun b => Bid.set_adminApproved true (Bid.set_status "ADMIN_APPROVED" b))
             (Db.bids db)) db)) "SOLD") as (_ & _ & Hbi & _).
  simpl in Hbi. rewrite Hbi.
  rewrite find_update_first_same by reflexivity.
  fold (find_bid db bidId). now rewrite Hb.
Qed.

(** C1. For a bid in status SELLER_ACCEPTED whose auction exists,
    [setBidAdminStatus(bidId, true)] succeeds; afterwards the bid is
    ADMIN_APPROVED with its admin flag set, the auction is SOLD, every box
    of the auction's box list is SOLD (the box each listed id resolves to
    and, ids being unique, every box carrying a listed id), and the ledger
    is the old ledger followed by one entry holding the auction's seller,
    the bid's buyer, the auction id and the bid's total. *)
Theorem setBidAdminStatus_approve
  (db : Db.t) (rnd now bidId : string) (bid : Bid.t) (auction : Auction.t) :
  find_bid db bidId = Some bid ->
  Bid.status bid = "SELLER_ACCEPTED" ->
  find_auction db (Bid.auctionId bid) = Some auction ->
  exists db' bid' auction',
    setBidAdminStatus db rnd now bidId true = (db', Ok bid')
    /\ find_bid db' bidId = Some bid'
    /\ Bid.status bid' = "ADMIN_APPROVED"
    /\ Bid.adminApproved bid' = true
    /\ find_auction db' (Bid.auctionId bid) = Some auction'
    /\ Auction.status auction' = "SOLD"
    /\ Auction.boxIds auction' = Auction.boxIds auction
    /\ (forall bxId, In bxId (Auction.boxIds auction) ->
        find_box db' bxId = option_map (Box.set_status "SOLD") (find_box db bxId))
    /\ (forall bxId bx, In bxId (Auction.boxIds auction) ->
        find_box db' bxId = Some bx -> Box.status bx = "SOLD")
    /\ (NoDup (map Box.id (Db.boxes db)) ->
        forall bx, In bx (Db.boxes db') ->
                   In (Box.id bx) (Auction.boxIds auction) ->
                   Box.status bx = "SOLD")
    /\ Db.ledger db' = Db.ledger db ++ [settlement rnd now auction bid]
    /\ Ledger.sellerId (settlement rnd now auction bid) = Auction.sellerId auction
    /\ Ledger.buyerId (settlement rnd now auction bid) = Bid.buyerId bid
    /\ Ledger.auctionId (settlement rnd now auction bid) = Bid.auctionId bid
    /\ Ledger.total (settlement rnd now auction bid) = Bid.total bid.
Proof.
  intros Hb Hs Ha.
  unfold setBidAdminStatus. rewrite Hb, Hs, Ha. simpl negb. cbv iota.
  set (upd := fun b => Bid.set_adminApproved true (Bid.set_status "ADMIN_APPROVED" b)).
  set (db1 := Db.set_bids _ db).
  set (db2 := Db.set_auctions _ db1).
  set (db3 := setBoxStatus_all db2 (Auction.boxIds auction) "SOLD").
  destruct (setBoxStatus_all_frame (Auction.boxIds auction) db2 "SOLD")
    as (Hu & Hau & Hbi & Hle).
  fold db3 in Hu, Hau, Hbi, Hle.
  exists (Db.set_ledger (Db.ledger db3 ++ [settlement rnd now auction bid]) db3),
         (upd bid), (Auction.set_status "SOLD" auction).
  assert (Hfb : forall bxId, In bxId (Auction.boxIds auction) ->
            find_box (Db.set_ledger (Db.ledger db3 ++ [settlement rnd now auction bid]) db3) bxId
            = option_map (Box.set_status "SOLD") (find_box db bxId)).
  { intros bxId Hin. unfold find_box at 1. simpl.
    change (find (is_box bxId) (Db.boxes db3)) with (find_box db3 bxId).
    unfold db3. now rewrite find_box_all_in. }
  split; [reflexivity|].
  split.
  { unfold find_bid. simpl. rewrite Hbi. simpl.
    rewrite find_update_first_same by reflexivity.
    fold (find_bid db bidId). now rewrite Hb. }
  split; [reflexivity|]. split; [reflexivity|].
  split.
  { unfold find_auction. simpl. rewrite Hau. simpl.
    rewrite find_update_first_same by reflexivity.
    fold (find_auction db (Bid.auctionId bid)). now rewrite Ha. }
  split; [reflexivity|]. split; [reflexivity|].
  split; [exact Hfb|].
  split.
  { intros bxId bx Hin Hf. rewrite (Hfb bxId Hin) in Hf.
    destruct (find_box db bxId); simpl in Hf; [|discriminate].
    now inversion Hf. }
  split.
  { intros Hnd bx Hin Hid. simpl in Hin. unfold db3 in Hin.
    rewrite setBoxStatus_all_unique in Hin by exact Hnd.
    simpl in Hin. apply in_map_iff in Hin. destruct Hin as (b0 & <- & _).
    destruct (existsb (String.eqb (Box.id b0)) (Auction.boxIds auction)) eqn:E;
      [reflexivity|].
    exfalso. simpl in Hid.
    assert (existsb (String.eqb (Box.id b0)) (Auction.boxIds auction) = true);
      [|congruence].
    apply existsb_exists. exists (Box.id b0). split; [exact Hid|].
    apply String.eqb_refl. }
  split; [simpl; now rewrite Hle|].
  repeat split. simpl. eapply find_auction_id; eauto.
Qed.

(** A witness of C1: the accepted bid of the end-to-end scenario. *)
Lemma setBidAdminStatus_approve_witness :
  exists db' bid' auction',
    setBidAdminStatus Scenario.accepted "t1" "now" "BID-d1" true = (db', Ok bid')
    /\ find_bid db' "BID-d1" = Some bid'
    /\ Bid.status bid' = "ADMIN_APPROVED"
    /\ Bid.adminApproved bid' = true
    /\ find_auction db' "AUC-a1" = Some auction'
    /\ Auction.status auction' = "SOLD"
    /\ Db.ledger db' = [settlement "t1" "now" Scenario.auction Scenario.bid].
Proof.
  destruct (setBidAdminStatus_approve Scenario.accepted "t1" "now" "BID-d1"
              Scenario.bid Scenario.auction eq_refl eq_refl eq_refl)
    as (db' & bid' & auction' & H1 & H2 & H3 & H4 & H5 & H6 & _ & _ & _ & _ & H7 & _).
  exists db', bid', auction'. repeat split; assumption.
Defined.

(** C2. When the bid's status is not SELLER_ACCEPTED,
    [setBidAdminStatus] fails with PreconditionFailed, whatever [approve]
    is, and the document is the one it was given.  In particular, after a
    successful approval a further call on the same bid fails that way and
    the ledger keeps its single new entry. *)
Theorem setBidAdminStatus_precondition
  (db : Db.t) (rnd now bidId : string) (bid : Bid.t) :
  find_bid db bidId = Some bid ->
  (Bid.status bid <> "SELLER_ACCEPTED" ->
   forall approve,
     setBidAdminStatus db rnd now bidId approve = (db, Err PreconditionFailed))
  /\ (forall db' bid',
        setBidAdminStatus db rnd now bidId true = (db', Ok bid') ->
        forall rnd' now' approve,
          setBidAdminStatus db' rnd' now' bidId approve
          = (db', Err PreconditionFailed)
          /\ Db.ledger (fst (setBidAdminStatus db' rnd' now' bidId approve))
             = Db.ledger db').
Proof.
  intros Hb.
  assert (Hfail : forall d b r n approve,
             find_bid d bidId = Some b -> Bid.status b <> "SELLER_ACCEPTED" ->
             setBidAdminStatus d r n bidId approve = (d, Err PreconditionFailed)).
  { intros d b r n approve Hd Hs. unfold setBidAdminStatus. rewrite Hd.
    apply String.eqb_neq in Hs. now rewrite Hs. }
  split.
  - intros Hs approve. now apply Hfail with bid.
  - intros db' bid' Hok rnd' now' approve.
    destruct (Bid.status bid =? "SELLER_ACCEPTED") eqn:Hs.
    + apply String.eqb_eq in Hs.
      destruct (find_auction db (Bid.auctionId bid)) as [auction|] eqn:Ha.
      * destruct (setBidAdminStatus_ok db rnd now bidId bid auction Hb Hs Ha)
          as (d & b & Hrun & Hfind & Hst).
        rewrite Hrun in Hok. inversion Hok; subst d b.
        rewrite (Hfail db' bid' rnd' now' approve Hfind); [split; reflexivity|].
        rewrite Hst. discriminate.
      * unfold setBidAdminStatus in Hok. rewrite Hb, Hs, Ha in Hok.
        simpl in Hok. discriminate.
    + apply String.eqb_neq in Hs.
      rewrite (Hfail db bid rnd now true Hb Hs) in Hok. discriminate.
Qed.

(** A witness of C2: a bid that is only SUBMITTED, and the bid of the
    end-to-end scenario approved a second time. *)
Lemma setBidAdminStatus_precondition_witness :
  setBidAdminStatus Scenario.submitted "t2" "later" "BID-d1" true
  = (Scenario.submitted, Err PreconditionFailed)
  /\ setBidAdminStatus Scenario.final "t2" "later" "BID-d1" true
     = (Scenario.final, Err PreconditionFailed)
  /\ length (Db.ledger Scenario.final) = 1.
Proof.
  split; [|split].
  - apply (proj1 (setBidAdminStatus_precondition Scenario.submitted "t2" "later"
                    "BID-d1" Scenario.submitted_bid eq_refl)).
    discriminate.
  - apply (proj2 (setBidAdminStatus_precondition Scenario.accepted "t1"
                    "2024-01-01T00:00:00.000Z" "BID-d1" Scenario.bid eq_refl)
             Scenario.final Scenario.approved_bid eq_refl "t2" "later" true).
  - reflexivity.
Defined.

(** ** The ledger along a run *)

Lemma step_fst {A : Type} (x : Db.t * result A) :
  fst (let '(d, r) := x in (d, is_ok r)) = fst x.
Proof. now destruct x. Qed.

Lemma step_snd {A : Type} (x : Db.t * result A) :
  snd (let '(d, r) := x in (d, is_ok r)) = is_ok (snd x).
Proof. now destruct x. Qed.


Lemma find_bid_update_other (f : Bid.t -> Bid.t) (a b : string) (l : list Bid.t) :
  a <> b -> (forall x, Bid.id (f x) = Bid.id x) ->
  find (is_bid b) (update_first (is_bid a) f l) = find (is_bid b) l.
Proof.
  intros Hab Hid. apply find_update_first_other.
  - intros x. unfold is_bid. now rewrite Hid.
  - intros x Hx. unfold is_bid in *. apply String.eqb_eq in Hx.
    apply String.eqb_neq. congruence.
Qed.

(** What each operation does to the bid collection. *)
Lemma createUser_bids db rnd u p n r par :
  Db.bids (fst (createUser db rnd u p n r par)) = Db.bids db.
Proof. unfold createUser. now destruct (find _ _). Qed.

Lemma addPart_bids db rnd b part :
  Db.bids (fst (addPart db rnd b part)) = Db.bids db.
Proof.
  unfold addPart. destruct (find_box db b); [|reflexivity].
  destruct (_ && _); [reflexivity|]. now destruct (_ && _).
Qed.

Lemma finalizeBox_bids db b : Db.bids (fst (finalizeBox db b)) = Db.bids db.
Proof.
  unfold finalizeBox. destruct (find_box db b) as [box|]; [|reflexivity].
  destruct (Box.parts box); [reflexivity|]. now destruct (negb _).
Qed.

Lemma createAuction_bids db rnd s data :
  Db.bids (fst (createAuction db rnd s data)) = Db.bids db.
Proof.
  unfold createAuction. destruct (validate_boxes _ _); [reflexivity|].
  cbv zeta. cbn [fst]. now rewrite setBoxStatus_all_bids.
Qed.





(** The ledger grows by one entry at each successful admin approval and
    at no other call. *)
Lemma step_ledger db op :
  length (Db.ledger (fst (step db op)))
  = length (Db.ledger db) + (if is_any_approval op && snd (step db op) then 1 else 0).
Proof.
  destruct op as
    [rnd u p n r par|rnd s data|rnd b part|b|rnd s data|rnd buyer a offers
    |b approve|rnd now b approve]; unfold step; rewrite step_fst, ?step_snd;
    cbn [is_any_approval andb].
  - unfold createUser. destruct (find _ _); simpl; lia.
  - simpl; lia.
  - unfold addPart. destruct (find_box db b); [|simpl; lia].
    destruct (_ && _); [simpl; lia|]. destruct (_ && _); simpl; lia.
  - unfold finalizeBox. destruct (find_box db b) as [box|]; [|simpl; lia].
    destruct (Box.parts box); [simpl; lia|]. destruct (negb _); simpl; lia.
  - unfold createAuction. destruct (validate_boxes _ _); [simpl; lia|].
    cbv zeta. cbn [fst]. rewrite setBoxStatus_all_ledger. simpl; lia.
  - unfold submitBid. destruct (find_auction db a); [|simpl; lia].
    destruct (PrimFloat.leb _ _); simpl; lia.
  - unfold setBidSellerStatus. destruct (find_bid db b); simpl; lia.
  - unfold setBidAdminStatus. destruct (find_bid db b) as [bid|];
      [|destruct approve; simpl; lia].
    destruct (negb _); [destruct approve; simpl; lia|].
    destruct (find_auction db (Bid.auctionId bid)) as [auction|];
      [|destruct approve; simpl; lia].
    destruct approve; cbv zeta; cbn [fst snd is_ok].
    + cbn [Db.ledger Db.set_ledger]. rewrite setBoxStatus_all_ledger.
      rewrite length_app. simpl. lia.
    + simpl; lia.
Qed.

(** Along a run the ledger gains exactly as many entries as there are
    successful admin approvals. *)
Lemma run_ledger ops : forall db,
  length (Db.ledger (run db ops))
  = length (Db.ledger db) + successes is_any_approval db ops.
Proof.
  induction ops as [|op rest IH]; intros db; [simpl; lia|].
  change (run db (op :: rest)) with (run (fst (step db op)) rest).
  rewrite IH, step_ledger. simpl. lia.
Qed.




(** ** Auction creation *)

Lemma validate_boxes_none db ids :
  validate_boxes db ids = None <->
  (forall bxId, In bxId ids ->
     exists bx, find_box db bxId = Some bx /\ Box.status bx = "FINISHED").
Proof.
  induction ids as [|x r IH]; simpl.
  - split; [intros _ ? []|reflexivity].
  - destruct (find_box db x) as [bx|] eqn:Hx.
    + destruct (Box.status bx =? "FINISHED") eqn:Hs; simpl.
      * apply String.eqb_eq in Hs. rewrite IH. split.
        -- intros H b [<-|Hb]; [exists bx; auto|auto].
        -- intros H b Hb. apply H. now right.
      * split; [discriminate|]. intros H.
        destruct (H x (or_introl eq_refl)) as (bx' & H1 & H2).
        rewrite Hx in H1. inversion H1; subst bx'.
        rewrite H2 in Hs. discriminate.
    + split; [discriminate|]. intros H.
      destruct (H x (or_introl eq_refl)) as (bx' & H1 & _).
      rewrite Hx in H1. discriminate.
Qed.

(** C4. [createAuction] is all-or-nothing.  If some listed id resolves
    to no box, or to a box that is not FINISHED, the call returns an
    error and the document (so every box status and the auction list) is
    the one it was given.  Otherwise the call returns an auction in status
    IN_AUCTION whose box list is [data.boxIds] as given, appended to the
    auctions, and every listed id resolves to its box in status
    IN_AUCTION. *)
Theorem createAuction_all_or_nothing
  (db : Db.t) (rnd sellerId : string) (data : Auction.input) :
  ((exists bxId, In bxId (Auction.in_boxIds data)
      /\ (find_box db bxId = None
          \/ exists bx, find_box db bxId = Some bx
                        /\ Box.status bx <> "FINISHED")) ->
   exists e, createAuction db rnd sellerId data = (db, Err e))
  /\ ((forall bxId, In bxId (Auction.in_boxIds data) ->
         exists bx, find_box db bxId = Some bx /\ Box.status bx = "FINISHED") ->
      exists db' auction,
        createAuction db rnd sellerId data = (db', Ok auction)
        /\ Auction.status auction = "IN_AUCTION"
        /\ Auction.boxIds auction = Auction.in_boxIds data
        /\ Auction.sellerId auction = sellerId
        /\ Db.auctions db' = Db.auctions db ++ [auction]
        /\ (forall bxId, In bxId (Auction.in_boxIds data) ->
            find_box db' bxId
            = option_map (Box.set_status "IN_AUCTION") (find_box db bxId))
        /\ (forall bxId, In bxId (Auction.in_boxIds data) ->
            exists bx, find_box db' bxId = Some bx
                       /\ Box.status bx = "IN_AUCTION")
        /\ (forall bxId, ~ In bxId (Auction.in_boxIds data) ->
            find_box db' bxId = find_box db bxId)).
Proof.
  split.
  - intros (bxId & Hin & Hbad). unfold createAuction.
    destruct (validate_boxes db (Auction.in_boxIds data)) as [e|] eqn:Hv;
      [now exists e|].
    exfalso. rewrite validate_boxes_none in Hv.
    destruct (Hv bxId Hin) as (bx & H1 & H2).
    destruct Hbad as [Hnone|(bx' & H3 & H4)]; [congruence|].
    rewrite H1 in H3. inversion H3; subst. contradiction.
  - intros Hall. unfold createAuction.
    rewrite (proj2 (validate_boxes_none db (Auction.in_boxIds data)) Hall).
    cbv zeta. eexists _, _. split; [reflexivity|].
    cbn [Auction.status Auction.boxIds Auction.sellerId].
    repeat (split; [reflexivity|]).
    split; [now rewrite setBoxStatus_all_auctions|].
    assert (Hf : forall bxId, In bxId (Auction.in_boxIds data) ->
              find_box (setBoxStatus_all
                 (Db.set_auctions (Db.auctions db ++
                    [Auction.mk (JS.makeId "AUC" rnd) sellerId
                       (JS.or_str (Auction.in_title data)
                          ("Auction " ++ JS.slice_last 5 (JS.makeId "AUC" rnd)))
                       (JS.or_arr (Auction.in_shipping data) [])
                       (JS.to_bool (Auction.in_forkliftOnSite data))
                       (JS.or_arr (Auction.in_paymentTerms data) [])
                       (Auction.in_boxIds data) "IN_AUCTION" []]) db)
                 (Auction.in_boxIds data) "IN_AUCTION") bxId
              = option_map (Box.set_status "IN_AUCTION") (find_box db bxId)).
    { intros bxId Hin. now rewrite find_box_all_in. }
    split; [exact Hf|]. split.
    + intros bxId Hin. rewrite (Hf bxId Hin).
      destruct (Hall bxId Hin) as (bx & -> & _).
      exists (Box.set_status "IN_AUCTION" bx). split; reflexivity.
    + intros bxId Hn. now rewrite find_box_all_notin.
Qed.

(** A witness of C4: listing the finished box of the scenario succeeds,
    listing it together with an unknown box changes nothing. *)
Lemma createAuction_all_or_nothing_witness :
  (exists e, createAuction Scenario.finished "a1" "USR-m" Scenario.bad_auction_data
             = (Scenario.finished, Err e))
  /\ (exists db' auction,
        createAuction Scenario.finished "a1" "USR-m" Scenario.auction_data
        = (db', Ok auction)
        /\ Auction.boxIds auction = ["BOX-b1"]
        /\ exists bx, find_box db' "BOX-b1" = Some bx
                      /\ Box.status bx = "IN_AUCTION").
Proof.
  split.
  - apply (proj1 (createAuction_all_or_nothing Scenario.finished "a1" "USR-m"
                    Scenario.bad_auction_data)).
    exists "BOX-zz". split; [right; left; reflexivity|left; reflexivity].
  - destruct (proj2 (createAuction_all_or_nothing Scenario.finished "a1" "USR-m"
                       Scenario.auction_data)) as (db' & a & H1 & _ & H3 & _ & _ & _ & H6 & _).
    + intros bxId [<-|[]]. eexists. split; reflexivity.
    + exists db', a. split; [exact H1|]. split; [exact H3|].
      apply H6. left. reflexivity.
Defined.

(** ** Finalising a box *)


Lemma find_box_update_other (f : Box.t -> Box.t) (a b : string) (l : list Box.t) :
  a <> b -> (forall x, Box.id (f x) = Box.id x) ->
  find (is_box b) (update_first (is_box a) f l) = find (is_box b) l.
Proof.
  intros Hab Hid. apply find_update_first_other.
  - intros x. unfold is_box. now rewrite Hid.
  - intros x Hx. unfold is_box in *. apply String.eqb_eq in Hx.
    apply String.eqb_neq. congruence.
Qed.


Lemma createUser_boxes db rnd u p n r par :
  Db.boxes (fst (createUser db rnd u p n r par)) = Db.boxes db.
Proof. unfold createUser. now destruct (find _ _). Qed.

Lemma submitBid_boxes db rnd buyer a offers :
  Db.boxes (fst (submitBid db rnd buyer a offers)) = Db.boxes db.
Proof.
  unfold submitBid. destruct (find_auction db a); [|reflexivity].
  now destruct (PrimFloat.leb _ _).
Qed.

Lemma setBidSellerStatus_boxes db b approve :
  Db.boxes (fst (setBidSellerStatus db b approve)) = Db.boxes db.
Proof. unfold setBidSellerStatus. now destruct (find_bid db b). Qed.






(** ** Reachable documents *)

Lemma Forall_update_first {A : Type} (P : A -> Prop) (p : A -> bool)
  (f : A -> A) (l : list A) :
  Forall P l ->
  (forall x, find p l = Some x -> P x -> P (f x)) ->
  Forall P (update_first p f l).
Proof.
  induction l as [|x r IH]; simpl; intros Hl Hf; [constructor|].
  inversion Hl as [|? ? Hx Hr]; subst.
  destruct (p x) eqn:E.
  - constructor; [apply Hf; auto|exact Hr].
  - constructor; [exact Hx|]. apply IH; auto.
Qed.















(** ** Adding a part *)

Lemma truthy_str_iff s : JS.truthy_str s = true <-> s <> "".
Proof. destruct s; simpl; split; congruence. Qed.




(** ** Submitting a bid *)

Lemma build_lineOffers_keys offers :
  map LineOffer.partId (build_lineOffers offers) = JS.keys offers.
Proof.
  unfold build_lineOffers. rewrite map_map. simpl. apply map_id.
Qed.

Lemma sum_offers_nan_as_zero los :
  sum_offers los
  = fold_left PrimFloat.add
      (map (fun o => nan_as_zero (LineOffer.amount o)) los) 0%float.
Proof.
  unfold sum_offers. generalize 0%float.
  induction los as [|o r IH]; intros acc; [reflexivity|].
  simpl. now rewrite IH.
Qed.

Lemma sum_offers_plain los :
  all_numeric los = true -> sum_offers los = plain_sum los.
Proof.
  unfold sum_offers, plain_sum. generalize 0%float.
  induction los as [|o r IH]; intros acc H; [reflexivity|].
  simpl in *. apply andb_true_iff in H. destruct H as [Ho Hr].
  rewrite <- IH by exact Hr. unfold add_offer at 2.
  apply negb_true_iff in Ho. now rewrite Ho.
Qed.

(** The outcome of [submitBid] on an existing auction. *)
Lemma submitBid_cases db rnd buyerId auctionId offers auction :
  find_auction db auctionId = Some auction ->
  let lineOffers := build_lineOffers offers in
  let total := sum_offers lineOffers in
  let bid := Bid.mk (JS.makeId "BID" rnd) auctionId buyerId lineOffers total
               "SUBMITTED" false false in
  (PrimFloat.leb total 0 = true /\
   submitBid db rnd buyerId auctionId offers = (db, Err EmptyBid))
  \/ (PrimFloat.leb total 0 = false /\
      exists db', submitBid db rnd buyerId auctionId offers = (db', Ok bid)
        /\ Db.bids db' = Db.bids db ++ [bid]
        /\ find_auction db' auctionId
           = Some (Auction.push_bid (Bid.id bid) auction)).
Proof.
  intros Ha lineOffers total bid. unfold submitBid. rewrite Ha.
  fold lineOffers. fold total.
  destruct (PrimFloat.leb total 0) eqn:E; [left; auto|right].
  split; [reflexivity|]. eexists. split; [reflexivity|].
  split; [reflexivity|]. unfold find_auction in *. simpl.
  rewrite find_update_first_same by reflexivity. now rewrite Ha.
Qed.



(** The examples of the specification: a non-numeric amount counts as
    zero, and offers that are all zero, or empty, are refused. *)
Example submitBid_mixed_offers :
  submitBid Scenario.listed "d2" "USR-o" "AUC-a1" Scenario.mixed_offers
  = (fst (submitBid Scenario.listed "d2" "USR-o" "AUC-a1" Scenario.mixed_offers),
     Ok Scenario.mixed_bid)
  /\ submitBid Scenario.listed "d2" "USR-o" "AUC-a1" Scenario.zero_offers
     = (Scenario.listed, Err EmptyBid)
  /\ submitBid Scenario.listed "d2" "USR-o" "AUC-a1" []
     = (Scenario.listed, Err EmptyBid).
Proof. repeat split; vm_compute; reflexivity. Qed.

(** C8, as the code has it.  The total stored in a bid created by
    [submitBid] is the sum of the amounts of its stored line items with
    every [NaN] amount read as zero; the stored amount itself stays
    [NaN].  When no stored amount is [NaN], the total is the plain sum of
    the amount fields. *)
Theorem submitBid_total
  (db db' : Db.t) (rnd buyerId auctionId : string) (offers : JS.object)
  (bid : Bid.t) :
  submitBid db rnd buyerId auctionId offers = (db', Ok bid) ->
  Bid.total bid = sum_offers (Bid.lineOffers bid)
  /\ Bid.total bid
     = fold_left PrimFloat.add
         (map (fun o => nan_as_zero (LineOffer.amount o)) (Bid.lineOffers bid))
         0%float
  /\ (all_numeric (Bid.lineOffers bid) = true ->
      Bid.total bid = plain_sum (Bid.lineOffers bid)).
Proof.
  intros H. unfold submitBid in H.
  destruct (find_auction db auctionId); [|discriminate].
  destruct (PrimFloat.leb _ _); [discriminate|].
  inversion H; subst; clear H. cbn [Bid.total Bid.lineOffers].
  split; [reflexivity|]. split; [apply sum_offers_nan_as_zero|].
  apply sum_offers_plain.
Qed.

(** A witness of C8: the bid of the end-to-end scenario. *)
Lemma submitBid_total_witness :
  Bid.total Scenario.submitted_bid
  = plain_sum (Bid.lineOffers Scenario.submitted_bid).
Proof.
  refine (proj2 (proj2 (submitBid_total Scenario.listed Scenario.submitted
            "d1" "USR-o" "AUC-a1" Scenario.offers Scenario.submitted_bid _)) _).
  - vm_compute. reflexivity.
  - reflexivity.
Defined.

(** C8 fails as stated: with offers [{P1: 10, P2: "abc"}] the bid is
    created with total 10, while the amounts of its stored line items,
    10 and [NaN], add up to [NaN]. *)
Lemma submitBid_total_not_plain_sum :
  snd (submitBid Scenario.listed "d2" "USR-o" "AUC-a1" Scenario.mixed_offers)
  = Ok Scenario.mixed_bid
  /\ Bid.total Scenario.mixed_bid = 10%float
  /\ map LineOffer.amount (Bid.lineOffers Scenario.mixed_bid)
     = [10%float; PrimFloat.nan]
  /\ plain_sum (Bid.lineOffers Scenario.mixed_bid) = PrimFloat.nan
  /\ PrimFloat.eqb (Bid.total Scenario.mixed_bid)
       (plain_sum (Bid.lineOffers Scenario.mixed_bid)) = false
  /\ Bid.total Scenario.mixed_bid
     <> plain_sum (Bid.lineOffers Scenario.mixed_bid).
Proof.
  repeat split; try (vm_compute; reflexivity).
  intros H. apply (f_equal PrimFloat.is_nan) in H. vm_compute in H.
  discriminate.
Qed.

(** ** Seller rejection *)

(** C9, as the code has it.  On an existing bid, whatever its state,
    [setBidSellerStatus(bidId, false)] sets the status to SELLER_REJECTED
    and leaves the seller-approved flag as it was: false when it was
    false, and still true on a bid the seller had accepted. *)
Theorem setBidSellerStatus_reject (db : Db.t) (bidId : string) (bid : Bid.t) :
  find_bid db bidId = Some bid ->
  exists db' bid',
    setBidSellerStatus db bidId false = (db', Ok bid')
    /\ find_bid db' bidId = Some bid'
    /\ Bid.status bid' = "SELLER_REJECTED"
    /\ Bid.sellerApproved bid' = Bid.sellerApproved bid
    /\ (Bid.sellerApproved bid = false -> Bid.sellerApproved bid' = false).
Proof.
  intros Hb. unfold setBidSellerStatus. rewrite Hb.
  eexists _, _. split; [reflexivity|]. split.
  - unfold find_bid in *. simpl.
    rewrite find_update_first_same by reflexivity. now rewrite Hb.
  - repeat split. intros H. exact H.
Qed.

(** A witness of C9: rejecting the submitted bid of the scenario. *)
Lemma setBidSellerStatus_reject_witness :
  exists db' bid',
    setBidSellerStatus Scenario.submitted "BID-d1" false = (db', Ok bid')
    /\ Bid.status bid' = "SELLER_REJECTED"
    /\ Bid.sellerApproved bid' = false.
Proof.
  destruct (setBidSellerStatus_reject Scenario.submitted "BID-d1"
              Scenario.submitted_bid eq_refl)
    as (db' & bid' & H1 & _ & H3 & _ & H5).
  exists db', bid'. split; [exact H1|]. split; [exact H3|].
  apply H5. reflexivity.
Defined.

(** C9 fails as stated: rejecting the bid that the seller accepted in
    the scenario leaves its seller-approved flag true. *)
Lemma setBidSellerStatus_reject_keeps_flag :
  find_bid Scenario.accepted "BID-d1" = Some Scenario.bid
  /\ option_map (fun b => (Bid.status b, Bid.sellerApproved b))
       (find_bid (fst (setBidSellerStatus Scenario.accepted "BID-d1" false))
          "BID-d1")
     = Some ("SELLER_REJECTED", true)
  /\ option_map Bid.sellerApproved
       (find_bid (fst (setBidSellerStatus Scenario.accepted "BID-d1" false))
          "BID-d1")
     <> Some false.
Proof.
  split; [reflexivity|]. split; [reflexivity|].
  vm_compute. discriminate.
Qed.

(** ** Creating a box *)

Lemma eqb_self_of_not_nan f :
  PrimFloat.is_nan f = false -> PrimFloat.eqb f f = true.
Proof. unfold PrimFloat.is_nan. now destruct (PrimFloat.eqb f f). Qed.

(** C10, as the code has it.  [createBox] always succeeds and appends a
    box in status WIP with no part.  Its net is the supplied net when
    that is a number other than 0 and [NaN]; otherwise (net absent, 0 or
    [NaN]) it is [data.gross - data.tare], with 0 stored when that
    difference is [NaN] (a weight is absent) and a zero difference stored
    as 0. *)
Theorem createBox_net
  (db : Db.t) (rnd sellerId : string) (data : Box.input) :
  exists box,
    createBox db rnd sellerId data
    = (Db.set_boxes (Db.boxes db ++ [box]) db, Ok box)
    /\ Box.status box = "WIP"
    /\ Box.parts box = []
    /\ Box.sellerId box = sellerId
    /\ (forall f, Box.in_net data = Some f -> JS.truthy_num f = true ->
        Box.net box = f)
    /\ (net_taken data = false ->
        (JS.truthy_num (gross_less_tare data) = true ->
         Box.net box = gross_less_tare data)
        /\ (PrimFloat.is_nan (gross_less_tare data) = false ->
            PrimFloat.eqb (gross_less_tare data) (Box.net box) = true)
        /\ (PrimFloat.is_nan (gross_less_tare data) = true ->
            Box.net box = 0%float)).
Proof.
  eexists. split; [reflexivity|]. cbn [Box.status Box.parts Box.sellerId Box.net].
  repeat (split; [reflexivity|]).
  fold (gross_less_tare data). split.
  - intros f Hf Ht. rewrite Hf. simpl. now rewrite Ht, Ht.
  - intros Hn.
    assert (E : JS.or_num (Box.in_net data) (gross_less_tare data)
                = gross_less_tare data).
    { unfold net_taken in Hn. unfold JS.or_num.
      destruct (Box.in_net data); [now rewrite Hn|reflexivity]. }
    rewrite E. set (d := gross_less_tare data). simpl.
    destruct (JS.truthy_num d) eqn:Ht.
    + repeat split. intros Hnan. now apply eqb_self_of_not_nan.
      intros Hnan. unfold JS.truthy_num in Ht. rewrite Hnan in Ht. discriminate.
    + split; [discriminate|]. split; [|reflexivity].
      intros Hnan. unfold JS.truthy_num in Ht. rewrite Hnan in Ht.
      simpl in Ht. now apply negb_false_iff in Ht.
Qed.

(** A witness of C10: a supplied net of 85 is stored, an absent net is
    derived as 100 - 10. *)
Lemma createBox_net_witness :
  (exists box,
     snd (createBox Scenario.start "b2" "USR-m" Scenario.box_data_net) = Ok box
     /\ Box.net box = 85%float)
  /\ (exists box,
        snd (createBox Scenario.start "b1" "USR-m" Scenario.box_data) = Ok box
        /\ Box.net box = 90%float).
Proof.
  split.
  - destruct (createBox_net Scenario.start "b2" "USR-m" Scenario.box_data_net)
      as (box & H1 & _ & _ & _ & H5 & _).
    exists box. rewrite H1. split; [reflexivity|].
    apply H5; reflexivity.
  - destruct (createBox_net Scenario.start "b1" "USR-m" Scenario.box_data)
      as (box & H1 & _ & _ & _ & _ & H6).
    exists box. rewrite H1. split; [reflexivity|].
    apply (proj1 (H6 eq_refl)). reflexivity.
Defined.

(** C10 fails as stated: a supplied net of 0, with gross 100 and tare
    10, is stored as 90. *)
Lemma createBox_net_zero_is_derived :
  Box.in_net Scenario.box_data_net0 = Some 0%float
  /\ snd (createBox Scenario.start "b1" "USR-m" Scenario.box_data_net0)
     = Ok Scenario.box_net0
  /\ Box.net Scenario.box_net0 = 90%float
  /\ PrimFloat.eqb (Box.net Scenario.box_net0) 0 = false.
Proof. repeat split. Qed.

(** * Further properties of the engine *)

(** ** Users and the session *)

Lemma find_username_none username (l : list User.t) :
  find (fun u => User.username u =? username) l = None <->
  ~ In username (map User.username l).
Proof.
  induction l as [|u r IH]; simpl; [tauto|].
  destruct (User.username u =? username) eqn:E.
  - apply String.eqb_eq in E. split; [discriminate|]. intros H. exfalso. auto.
  - apply String.eqb_neq in E. rewrite IH. tauto.
Qed.

(** The user record [createUser] builds. *)
Lemma createUser_cases db rnd username password name role parentId :
  (In username (map User.username (Db.users db))
   /\ createUser db rnd username password name role parentId
      = (db, Err DuplicateUsername))
  \/ (~ In username (map User.username (Db.users db))
      /\ exists found,
           createUser db rnd username password name role parentId
           = (Db.set_users
                (Db.users db
                 ++ [User.mk (JS.makeId "USR" rnd) username password name role
                       (JS.or_str parentId "") 0%Z]) db,
              Ok found)).
Proof.
  unfold createUser.
  destruct (find _ (Db.users db)) as [u|] eqn:E.
  - left. split; [|reflexivity]. apply find_some in E. destruct E as [E1 E2].
    apply String.eqb_eq in E2. subst username. now apply in_map.
  - right. split; [now apply find_username_none|]. eexists. reflexivity.
Qed.

(** X1. [createUser] refuses a user name that is taken (exact match) and
    returns the document it was given; otherwise it appends one user with
    the given name, password, display name and role, trust level 0 and
    the parent id (empty when absent), touches nothing else, and returns
    that user when the generated id is not yet in use. *)
Theorem createUser_spec
  (db : Db.t) (rnd username password name role : string)
  (parentId : option string) :
  (In username (map User.username (Db.users db)) ->
   createUser db rnd username password name role parentId
   = (db, Err DuplicateUsername))
  /\ (~ In username (map User.username (Db.users db)) ->
      let user := User.mk (JS.makeId "USR" rnd) username password name role
                    (JS.or_str parentId "") 0%Z in
      exists res,
        createUser db rnd username password name role parentId
        = (Db.set_users (Db.users db ++ [user]) db, Ok res)
        /\ (~ In (JS.makeId "USR" rnd) (map User.id (Db.users db)) ->
            res = Some user)).
Proof.
  destruct (createUser_cases db rnd username password name role parentId)
    as [[Hin E]|[Hn (found & E)]].
  - split; [auto|]. intros H. contradiction.
  - split; [intros H; contradiction|]. intros _ user.
    unfold createUser in *. rewrite (proj2 (find_username_none _ _) Hn) in *.
    eexists. split; [reflexivity|]. intros Hfresh. simpl.
    rewrite find_app.
    destruct (find (fun u => User.id u =? JS.makeId "USR" rnd) (Db.users db))
      as [u|] eqn:F.
    + exfalso. apply Hfresh. apply find_some in F. destruct F as [F1 F2].
      apply String.eqb_eq in F2. rewrite <- F2. now apply in_map.
    + simpl. now rewrite String.eqb_refl.
Qed.


(** With unique keys, looking an element up by its key finds it. *)
Lemma find_unique {A : Type} (key : A -> string) (x : A) (l : list A) :
  NoDup (map key l) -> In x l -> find (fun y => key y =? key x) l = Some x.
Proof.
  induction l as [|y r IH]; simpl; [tauto|].
  intros Hnd Hin. inversion Hnd as [|? ? Hy Hr]; subst.
  destruct Hin as [->|Hin].
  - now rewrite String.eqb_refl.
  - destruct (key y =? key x) eqn:E; [|now apply IH].
    apply String.eqb_eq in E. exfalso. apply Hy. rewrite E. now apply in_map.
Qed.

(** The users after a step: the same, or one more with a new name. *)
Lemma step_users db op :
  Db.users (fst (step db op)) = Db.users db
  \/ exists u, Db.users (fst (step db op)) = Db.users db ++ [u]
               /\ ~ In (User.username u) (map User.username (Db.users db)).
Proof.
  destruct op as
    [rnd u p n r par|rnd s data|rnd b part|b|rnd s data|rnd buyer a offers
    |b approve|rnd now b approve]; unfold step; rewrite step_fst.
  - destruct (createUser_cases db rnd u p n r par) as [[_ ->]|[Hn (f & ->)]].
    + now left.
    + right. eexists. split; [reflexivity|exact Hn].
  - now left.
  - left. unfold addPart. destruct (find_box db b); [|reflexivity].
    destruct (_ && _); [reflexivity|]. now destruct (_ && _).
  - left. unfold finalizeBox. destruct (find_box db b) as [bx|]; [|reflexivity].
    destruct (Box.parts bx); [reflexivity|]. now destruct (negb _).
  - left. unfold createAuction. destruct (validate_boxes _ _); [reflexivity|].
    cbv zeta. cbn [fst]. now destruct (setBoxStatus_all_frame
      (Auction.boxIds (Auction.mk (JS.makeId "AUC" rnd) s
          (JS.or_str (Auction.in_title data)
             ("Auction " ++ JS.slice_last 5 (JS.makeId "AUC" rnd)))
          (JS.or_arr (Auction.in_shipping data) [])
          (JS.to_bool (Auction.in_forkliftOnSite data))
          (JS.or_arr (Auction.in_paymentTerms data) [])
          (Auction.in_boxIds data) "IN_AUCTION" []))
      (Db.set_auctions (Db.auctions db ++
         [Auction.mk (JS.makeId "AUC" rnd) s
          (JS.or_str (Auction.in_title data)
             ("Auction " ++ JS.slice_last 5 (JS.makeId "AUC" rnd)))
          (JS.or_arr (Auction.in_shipping data) [])
          (JS.to_bool (Auction.in_forkliftOnSite data))
          (JS.or_arr (Auction.in_paymentTerms data) [])
          (Auction.in_boxIds data) "IN_AUCTION" []]) db) "IN_AUCTION")
      as (-> & _).
  - left. unfold submitBid. destruct (find_auction db a); [|reflexivity].
    now destruct (PrimFloat.leb _ _).
  - left. unfold setBidSellerStatus. now destruct (find_bid db b).
  - left. unfold setBidAdminStatus. destruct (find_bid db b) as [bid|];
      [|reflexivity].
    destruct (negb _); [reflexivity|].
    destruct (find_auction db (Bid.auctionId bid)) as [auction|]; [|reflexivity].
    destruct approve; cbv zeta; cbn [fst]; [|reflexivity].
    cbn [Db.users Db.set_ledger].
    match goal with |- Db.users (setBoxStatus_all ?d ?i ?s) = _ =>
      destruct (setBoxStatus_all_frame i d s) as (-> & _) end.
    reflexivity.
Qed.

Lemma run_cons db op ops : run db (op :: ops) = run (fst (step db op)) ops.
Proof. reflexivity. Qed.

Lemma NoDup_snoc {A : Type} (l : list A) (x : A) :
  NoDup l -> ~ In x l -> NoDup (l ++ [x]).
Proof.
  intros Hl Hx. apply NoDup_app; [exact Hl|repeat constructor; auto|].
  intros y Hy [<-|[]]. contradiction.
Qed.

(** X2. User names stay unique: if no two users of a document share a
    user name, no run of operations makes two users share one; the users
    already there stay, unchanged and in place, at the head of the
    list. *)
Theorem usernames_stay_unique (ops : list Op) :
  forall db : Db.t,
    NoDup (map User.username (Db.users db)) ->
    NoDup (map User.username (Db.users (run db ops)))
    /\ is_prefix (Db.users db) (Db.users (run db ops)).
Proof.
  induction ops as [|op rest IH]; intros db Hnd.
  - split; [exact Hnd|]. exists []. now rewrite app_nil_r.
  - rewrite run_cons.
    destruct (step_users db op) as [E|(u & E & Hu)].
    + destruct (IH (fst (step db op))) as [H1 H2]; [now rewrite E|].
      split; [exact H1|]. now rewrite E in H2.
    + destruct (IH (fst (step db op))) as [H1 [s H2]].
      { rewrite E, map_app. simpl. now apply NoDup_snoc. }
      split; [exact H1|]. exists (u :: s). rewrite H2, E, <- app_assoc.
      reflexivity.
Qed.


(** X4. The session round trip: once [setCurrentUser] has stored a user
    of the document whose id is non-empty, ids being unique,
    [getCurrentUser] returns that user; after [setCurrentUser(null)] it
    returns nothing, and a failed login leaves the session as it was. *)
Theorem session_round_trip (db : Db.t) (user : User.t) :
  In user (Db.users db) ->
  NoDup (map User.id (Db.users db)) ->
  User.id user <> "" ->
  getCurrentUser (setCurrentUser (Some user)) db = Some user
  /\ getCurrentUser (setCurrentUser None) db = None
  /\ (forall s username password,
        login db username password = Some user ->
        getCurrentUser (login_submit s db username password) db = Some user)
  /\ (forall s username password,
        login db username password = None ->
        login_submit s db username password = s).
Proof.
  intros Hin Hnd Hid.
  assert (E : getCurrentUser (setCurrentUser (Some user)) db = Some user).
  { unfold getCurrentUser, setCurrentUser.
    apply truthy_str_iff in Hid. rewrite Hid. now apply find_unique. }
  split; [exact E|]. split; [reflexivity|]. split.
  - intros s u p H. unfold login_submit. now rewrite H.
  - intros s u p H. unfold login_submit. now rewrite H.
Qed.

(** X5. [initDemo] seeds an empty user list with three accounts, each
    sponsored by the one before (the manager by the admin, the operator
    by the manager), leaves a document that has users as it is, never
    touches the other collections, and running it again changes
    nothing. *)
Theorem initDemo_seeds_once (db : Db.t) (r1 r2 r3 r1' r2' r3' : string) :
  initDemo (initDemo db r1 r2 r3) r1' r2' r3' = initDemo db r1 r2 r3
  /\ (Db.users db <> [] -> initDemo db r1 r2 r3 = db)
  /\ (Db.users db = [] ->
      map (fun u => (User.username u, User.role u, User.parentId u))
          (Db.users (initDemo db r1 r2 r3))
      = [("admin", "admin", "");
         ("manager", "seller", JS.makeId "USR" r1);
         ("operator", "buyer", JS.makeId "USR" r2)]
      /\ map User.id (Db.users (initDemo db r1 r2 r3))
         = [JS.makeId "USR" r1; JS.makeId "USR" r2; JS.makeId "USR" r3])
  /\ Db.boxes (initDemo db r1 r2 r3) = Db.boxes db
  /\ Db.auctions (initDemo db r1 r2 r3) = Db.auctions db
  /\ Db.bids (initDemo db r1 r2 r3) = Db.bids db
  /\ Db.ledger (initDemo db r1 r2 r3) = Db.ledger db.
Proof.
  unfold initDemo. destruct (Db.users db) as [|u us] eqn:E.
  - simpl. repeat split; try reflexivity. intros H. now contradiction H.
  - rewrite E. repeat split; try reflexivity; discriminate.
Qed.

(** ** Parts *)

(** X6. [addPart] changes nothing when it refuses: an unknown box id gives
    BoxNotFound, and a box whose status is neither WIP nor FINISHED (in
    auction, sold) gives InvalidBoxState whatever the part is. *)
Theorem addPart_refusals
  (db : Db.t) (rnd boxId : string) (part : Part.input) :
  (find_box db boxId = None ->
   addPart db rnd boxId part = (db, Err BoxNotFound))
  /\ (forall box, find_box db boxId = Some box ->
        Box.status box <> "WIP" -> Box.status box <> "FINISHED" ->
        addPart db rnd boxId part = (db, Err InvalidBoxState)).
Proof.
  split.
  - intros H. unfold addPart. now rewrite H.
  - intros box H H1 H2. unfold addPart. rewrite H.
    apply String.eqb_neq in H1, H2. now rewrite H1, H2.
Qed.



(** ** Boxes along a run *)

Lemma is_prefix_refl {A : Type} (l : list A) : is_prefix l l.
Proof. exists []. now rewrite app_nil_r. Qed.

Lemma is_prefix_trans {A : Type} (l1 l2 l3 : list A) :
  is_prefix l1 l2 -> is_prefix l2 l3 -> is_prefix l1 l3.
Proof.
  intros [s1 ->] [s2 ->]. exists (s1 ++ s2). now rewrite app_assoc.
Qed.

Lemma box_rank_max s : box_rank s <= 3.
Proof.
  unfold box_rank. destruct (s =? "SOLD"); [lia|].
  destruct (s =? "IN_AUCTION"); [lia|]. destruct (s =? "FINISHED"); lia.
Qed.

Lemma box_evolves_refl b : box_evolves b b.
Proof.
  unfold box_evolves. repeat split; auto. apply is_prefix_refl.
Qed.

Lemma box_evolves_trans b1 b2 b3 :
  box_evolves b1 b2 -> box_evolves b2 b3 -> box_evolves b1 b3.
Proof.
  unfold box_evolves.
  intros (A1 & A2 & A3 & A4 & A5 & A6 & A7 & A8 & A9 & A10 & A11 & A12)
         (B1 & B2 & B3 & B4 & B5 & B6 & B7 & B8 & B9 & B10 & B11 & B12).
  repeat split; try congruence.
  - intros H. rewrite B10; [now apply A10|]. rewrite A10; auto.
  - lia.
  - eapply is_prefix_trans; eauto.
Qed.

Lemma find_box_frame db db' b :
  Db.boxes db' = Db.boxes db -> find_box db' b = find_box db b.
Proof. intros E. unfold find_box. now rewrite E. Qed.

(** The cascade of [setBoxStatus] on one resolved box. *)
Lemma find_box_all db ids s b box :
  find_box db b = Some box ->
  find_box (setBoxStatus_all db ids s) b
  = Some (if in_dec string_dec b ids then Box.set_status s box else box).
Proof.
  intros H. destruct (in_dec string_dec b ids) as [Hin|Hn].
  - now rewrite find_box_all_in, H.
  - now rewrite find_box_all_notin.
Qed.

Lemma box_evolves_status box s :
  box_rank (Box.status box) <= box_rank s ->
  box_evolves box (Box.set_status s box).
Proof.
  intros H. unfold box_evolves. repeat split; auto. apply is_prefix_refl.
Qed.

(** A resolved box stays resolved along a step, and evolves. *)
Lemma step_box db op b box :
  find_box db b = Some box ->
  exists box', find_box (fst (step db op)) b = Some box' /\ box_evolves box box'.
Proof.
  intros Hb. destruct op as
    [rnd u p n r par|rnd s data|rnd b0 part|b0|rnd s data|rnd buyer a offers
    |b0 approve|rnd now b0 approve]; unfold step; rewrite step_fst.
  - exists box. rewrite (find_box_frame db) by apply createUser_boxes.
    split; [exact Hb|apply box_evolves_refl].
  - exists box. split; [|apply box_evolves_refl].
    unfold find_box in *. simpl. now rewrite find_app, Hb.
  - unfold addPart. destruct (find_box db b0) as [bx|] eqn:Hb0;
      [|exists box; split; [exact Hb|apply box_evolves_refl]].
    destruct (_ && _); [exists box; split; [exact Hb|apply box_evolves_refl]|].
    destruct (_ && _) eqn:Em;
      [exists box; split; [exact Hb|apply box_evolves_refl]|].
    cbv zeta. cbn [fst]. unfold find_box in *. cbn [Db.boxes Db.set_boxes].
    destruct (string_dec b0 b) as [->|Hne].
    + rewrite find_update_first_same by reflexivity. rewrite Hb. simpl.
      eexists. split; [reflexivity|]. rewrite Hb in Hb0. inversion Hb0; subst bx.
      unfold box_evolves. simpl. repeat split; auto.
      * intros Hm. apply truthy_str_iff in Hm. now rewrite Hm.
      * eexists. reflexivity.
    + rewrite find_box_update_other by (auto; reflexivity).
      exists box. split; [exact Hb|apply box_evolves_refl].
  - unfold finalizeBox. destruct (find_box db b0) as [bx|] eqn:Hb0;
      [|exists box; split; [exact Hb|apply box_evolves_refl]].
    destruct (Box.parts bx); [exists box; split; [exact Hb|apply box_evolves_refl]|].
    destruct (Box.status bx =? "WIP") eqn:Es; simpl negb; cbv iota;
      [|exists box; split; [exact Hb|apply box_evolves_refl]].
    cbn [fst]. unfold find_box in *. cbn [Db.boxes Db.set_boxes].
    destruct (string_dec b0 b) as [->|Hne].
    + rewrite find_update_first_same by reflexivity. rewrite Hb. simpl.
      eexists. split; [reflexivity|]. rewrite Hb in Hb0. inversion Hb0; subst bx.
      apply box_evolves_status. apply String.eqb_eq in Es. rewrite Es.
      vm_compute. lia.
    + rewrite find_box_update_other by (auto; reflexivity).
      exists box. split; [exact Hb|apply box_evolves_refl].
  - unfold createAuction.
    destruct (validate_boxes db (Auction.in_boxIds data)) eqn:Hv;
      [exists box; split; [exact Hb|apply box_evolves_refl]|].
    cbv zeta. cbn [fst Auction.boxIds].
    erewrite find_box_all by exact Hb.
    eexists. split; [reflexivity|].
    destruct (in_dec string_dec b (Auction.in_boxIds data)) as [Hin|Hn];
      [|apply box_evolves_refl].
    apply box_evolves_status. rewrite validate_boxes_none in Hv.
    destruct (Hv b Hin) as (bx & H1 & H2). rewrite Hb in H1.
    inversion H1; subst bx. rewrite H2. vm_compute. lia.
  - exists box. rewrite (find_box_frame db) by apply submitBid_boxes.
    split; [exact Hb|apply box_evolves_refl].
  - exists box. rewrite (find_box_frame db) by apply setBidSellerStatus_boxes.
    split; [exact Hb|apply box_evolves_refl].
  - unfold setBidAdminStatus. destruct (find_bid db b0) as [bid|];
      [|exists box; split; [exact Hb|apply box_evolves_refl]].
    destruct (negb _); [exists box; split; [exact Hb|apply box_evolves_refl]|].
    destruct (find_auction db (Bid.auctionId bid)) as [auction|];
      [|exists box; split; [exact Hb|apply box_evolves_refl]].
    destruct approve; cbv zeta; cbn [fst];
      [|exists box; split; [exact Hb|apply box_evolves_refl]].
    rewrite (find_box_frame (setBoxStatus_all _ _ _)) by reflexivity.
    erewrite find_box_all by exact Hb.
    eexists. split; [reflexivity|].
    destruct (in_dec string_dec b (Auction.boxIds auction));
      [|apply box_evolves_refl].
    apply box_evolves_status. apply box_rank_max.
Qed.

Lemma run_box ops : forall db b box,
  find_box db b = Some box ->
  exists box', find_box (run db ops) b = Some box' /\ box_evolves box box'.
Proof.
  induction ops as [|op rest IH]; intros db b box Hb.
  - exists box. split; [exact Hb|apply box_evolves_refl].
  - rewrite run_cons. destruct (step_box db op b box Hb) as (b1 & H1 & E1).
    destruct (IH _ b b1 H1) as (b2 & H2 & E2).
    exists b2. split; [exact H2|]. eapply box_evolves_trans; eauto.
Qed.

Lemma find_box_id db b box : find_box db b = Some box -> Box.id box = b.
Proof.
  intros H. apply find_some in H. destruct H as [_ H].
  now apply String.eqb_eq in H.
Qed.

Lemma find_bid_id db b bid : find_bid db b = Some bid -> Bid.id bid = b.
Proof.
  intros H. apply find_some in H. destruct H as [_ H].
  now apply String.eqb_eq in H.
Qed.

(** X8. No run of operations moves a box backward in the lifecycle WIP,
    FINISHED, IN_AUCTION, SOLD, or removes it: the box an id resolves to
    is still resolved afterwards, at the same or a later stage. *)
Theorem box_status_never_backward
  (db : Db.t) (ops : list Op) (boxId : string) (box : Box.t) :
  find_box db boxId = Some box ->
  exists box',
    find_box (run db ops) boxId = Some box'
    /\ box_rank (Box.status box) <= box_rank (Box.status box').
Proof.
  intros Hb. destruct (run_box ops db boxId box Hb) as (box' & H & E).
  exists box'. split; [exact H|apply E].
Qed.

(** X9. Once a box has a material, no run of operations changes it. *)
Theorem box_material_locked
  (db : Db.t) (ops : list Op) (boxId : string) (box : Box.t) :
  find_box db boxId = Some box ->
  Box.material box <> "" ->
  exists box',
    find_box (run db ops) boxId = Some box'
    /\ Box.material box' = Box.material box.
Proof.
  intros Hb Hm. destruct (run_box ops db boxId box Hb) as (box' & H & E).
  exists box'. split; [exact H|]. now apply E.
Qed.

(** X10. Along any run the parts of a box are only ever appended to
    (none is removed, changed or reordered), and the box keeps its id,
    seller, package name, sale unit, count, weights and photos. *)
Theorem box_parts_append_only
  (db : Db.t) (ops : list Op) (boxId : string) (box : Box.t) :
  find_box db boxId = Some box ->
  exists box' added,
    find_box (run db ops) boxId = Some box'
    /\ Box.parts box' = Box.parts box ++ added
    /\ Box.id box' = boxId
    /\ Box.sellerId box' = Box.sellerId box
    /\ Box.packageName box' = Box.packageName box
    /\ Box.saleUnit box' = Box.saleUnit box
    /\ (Box.count box', Box.gross box', Box.tare box', Box.net box')
       = (Box.count box, Box.gross box, Box.tare box, Box.net box)
    /\ Box.photos box' = Box.photos box.
Proof.
  intros Hb. destruct (run_box ops db boxId box Hb) as (box' & H & E).
  destruct E as (E1 & E2 & E3 & E4 & E5 & E6 & E7 & E8 & E9 & _ & _ & [s E12]).
  exists box', s. split; [exact H|]. split; [exact E12|].
  split; [eapply find_box_id; eauto|].
  repeat split; try assumption. congruence.
Qed.

(** X11. A box is never listed twice: once [createAuction] has listed a
    box, every later [createAuction] that names it fails and changes
    nothing, whatever operations came in between. *)
Theorem box_never_listed_twice
  (db db1 : Db.t) (rnd sellerId boxId : string) (data : Auction.input)
  (auction : Auction.t) :
  createAuction db rnd sellerId data = (db1, Ok auction) ->
  In boxId (Auction.boxIds auction) ->
  forall ops rnd' sellerId' data',
    In boxId (Auction.in_boxIds data') ->
    exists e,
      createAuction (run db1 ops) rnd' sellerId' data' = (run db1 ops, Err e).
Proof.
  intros H Hin ops rnd' sellerId' data' Hin'.
  unfold createAuction in H.
  destruct (validate_boxes db (Auction.in_boxIds data)) eqn:Hv; [discriminate|].
  cbv zeta in H. inversion H; subst; clear H. cbn [Auction.boxIds] in *.
  rewrite validate_boxes_none in Hv. destruct (Hv boxId Hin) as (bx & H1 & H2).
  match goal with |- context [run ?d ops] => set (db1 := d) end.
  assert (Hf : find_box db1 boxId = Some (Box.set_status "IN_AUCTION" bx)).
  { unfold db1. rewrite find_box_all_in by exact Hin.
    change (find_box (Db.set_auctions _ db) boxId) with (find_box db boxId).
    now rewrite H1. }
  destruct (run_box ops db1 boxId _ Hf) as (box' & Hr & E).
  unfold createAuction.
  destruct (validate_boxes (run db1 ops) (Auction.in_boxIds data')) as [e|] eqn:Hv';
    [now exists e|].
  exfalso. rewrite validate_boxes_none in Hv'.
  destruct (Hv' boxId Hin') as (bx' & H3 & H4). rewrite Hr in H3.
  inversion H3; subst bx'.
  destruct E as (_ & _ & _ & _ & _ & _ & _ & _ & _ & _ & Hrank & _).
  rewrite H4 in Hrank. vm_compute in Hrank. lia.
Qed.

(** ** Auctions, bids and the ledger along a run *)

Lemma auction_evolves_refl a : auction_evolves a a.
Proof. unfold auction_evolves. repeat split; auto. apply is_prefix_refl. Qed.

Lemma auction_evolves_trans a1 a2 a3 :
  auction_evolves a1 a2 -> auction_evolves a2 a3 -> auction_evolves a1 a3.
Proof.
  unfold auction_evolves.
  intros (A1 & A2 & A3 & A4 & A5 & A6 & A7 & A8 & A9)
         (B1 & B2 & B3 & B4 & B5 & B6 & B7 & B8 & B9).
  repeat split; try congruence.
  - destruct B8 as [B8|B8]; [|now right]. rewrite B8. exact A8.
  - eapply is_prefix_trans; eauto.
Qed.

Lemma bid_evolves_refl b : bid_evolves b b.
Proof. unfold bid_evolves. repeat split; auto. Qed.

Lemma bid_evolves_trans b1 b2 b3 :
  bid_evolves b1 b2 -> bid_evolves b2 b3 -> bid_evolves b1 b3.
Proof.
  unfold bid_evolves.
  intros (A1 & A2 & A3 & A4 & A5 & A6 & A7) (B1 & B2 & B3 & B4 & B5 & B6 & B7).
  repeat split; try congruence; auto.
Qed.

Lemma find_auction_frame db db' a :
  Db.auctions db' = Db.auctions db -> find_auction db' a = find_auction db a.
Proof. intros E. unfold find_auction. now rewrite E. Qed.

Lemma find_bid_frame db db' b :
  Db.bids db' = Db.bids db -> find_bid db' b = find_bid db b.
Proof. intros E. unfold find_bid. now rewrite E. Qed.

Lemma find_auction_update_other (f : Auction.t -> Auction.t) (a b : string)
  (l : list Auction.t) :
  a <> b -> (forall x, Auction.id (f x) = Auction.id x) ->
  find (is_auction b) (update_first (is_auction a) f l) = find (is_auction b) l.
Proof.
  intros Hab Hid. apply find_update_first_other.
  - intros x. unfold is_auction. now rewrite Hid.
  - intros x Hx. unfold is_auction in *. apply String.eqb_eq in Hx.
    apply String.eqb_neq. congruence.
Qed.

(** What each operation does to the auction collection. *)
Lemma step_auctions db op :
  Db.auctions (fst (step db op)) = Db.auctions db
  \/ (exists rnd s data a,
        op = CreateAuction rnd s data
        /\ validate_boxes db (Auction.in_boxIds data) = None
        /\ Auction.boxIds a = Auction.in_boxIds data
        /\ Auction.sellerId a = s /\ Auction.status a = "IN_AUCTION"
        /\ Auction.bids a = []
        /\ Db.auctions (fst (step db op)) = Db.auctions db ++ [a])
  \/ (exists a0 f,
        Db.auctions (fst (step db op))
        = update_first (is_auction a0) f (Db.auctions db)
        /\ forall x, auction_evolves x (f x)).
Proof.
  destruct op as
    [rnd u p n r par|rnd s data|rnd b part|b|rnd s data|rnd buyer a offers
    |b approve|rnd now b approve]; unfold step; rewrite step_fst.
  - left. unfold createUser. now destruct (find _ _).
  - now left.
  - left. unfold addPart. destruct (find_box db b); [|reflexivity].
    destruct (_ && _); [reflexivity|]. now destruct (_ && _).
  - left. unfold finalizeBox. destruct (find_box db b) as [bx|]; [|reflexivity].
    destruct (Box.parts bx); [reflexivity|]. now destruct (negb _).
  - unfold createAuction.
    destruct (validate_boxes db (Auction.in_boxIds data)) eqn:Hv; [now left|].
    right. left. cbv zeta. cbn [fst]. rewrite setBoxStatus_all_auctions.
    eexists rnd, s, data, _. repeat split. exact Hv. all: reflexivity.
  - unfold submitBid. destruct (find_auction db a); [|now left].
    destruct (PrimFloat.leb _ _); [now left|].
    right. right. cbv zeta. cbn [fst Db.auctions Db.set_auctions Db.set_bids].
    eexists _, _. split; [reflexivity|].
    intros x. unfold auction_evolves. simpl. repeat split; auto.
    eexists. reflexivity.
  - left. unfold setBidSellerStatus. now destruct (find_bid db b).
  - unfold setBidAdminStatus. destruct (find_bid db b) as [bid|]; [|now left].
    destruct (negb _); [now left|].
    destruct (find_auction db (Bid.auctionId bid)) as [auction|]; [|now left].
    destruct approve; cbv zeta; cbn [fst]; [|now left].
    right. right. cbn [Db.auctions Db.set_ledger].
    rewrite setBoxStatus_all_auctions.
    cbn [Db.auctions Db.set_auctions Db.set_bids].
    eexists _, _. split; [reflexivity|].
    intros x. unfold auction_evolves. simpl. repeat split; auto.
    apply is_prefix_refl.
Qed.

Lemma evolves_id_auction x y : auction_evolves x y -> Auction.id y = Auction.id x.
Proof. intros H. apply H. Qed.

(** A resolved auction stays resolved along a step, and evolves. *)
Lemma step_auction db op a x :
  find_auction db a = Some x ->
  exists x', find_auction (fst (step db op)) a = Some x' /\ auction_evolves x x'.
Proof.
  intros Ha.
  destruct (step_auctions db op)
    as [E|[(rnd & s & data & a1 & _ & _ & _ & _ & _ & _ & E)|(a0 & f & E & Hf)]].
  - exists x. rewrite (find_auction_frame db) by exact E.
    split; [exact Ha|apply auction_evolves_refl].
  - exists x. unfold find_auction in *. rewrite E, find_app, Ha.
    split; [reflexivity|apply auction_evolves_refl].
  - unfold find_auction in *. rewrite E.
    destruct (string_dec a0 a) as [->|Hne].
    + rewrite find_update_first_same.
      * rewrite Ha. exists (f x). split; [reflexivity|apply Hf].
      * intros y. unfold is_auction. now rewrite (evolves_id_auction y (f y)).
    + rewrite find_auction_update_other; auto.
      * exists x. split; [exact Ha|apply auction_evolves_refl].
      * intros y. now apply evolves_id_auction.
Qed.

Lemma run_auction ops : forall db a x,
  find_auction db a = Some x ->
  exists x', find_auction (run db ops) a = Some x' /\ auction_evolves x x'.
Proof.
  induction ops as [|op rest IH]; intros db a x Ha.
  - exists x. split; [exact Ha|apply auction_evolves_refl].
  - rewrite run_cons. destruct (step_auction db op a x Ha) as (x1 & H1 & E1).
    destruct (IH _ a x1 H1) as (x2 & H2 & E2).
    exists x2. split; [exact H2|]. eapply auction_evolves_trans; eauto.
Qed.

(** X12. An auction is fixed at creation: along any run the auction an id
    resolves to stays resolved with the same seller, title, terms and box
    list; its status either stays or becomes SOLD, and its bid list only
    grows at the end. *)
Theorem auction_fixed_at_creation
  (db : Db.t) (ops : list Op) (auctionId : string) (auction : Auction.t) :
  find_auction db auctionId = Some auction ->
  exists auction' newBids,
    find_auction (run db ops) auctionId = Some auction'
    /\ Auction.boxIds auction' = Auction.boxIds auction
    /\ Auction.sellerId auction' = Auction.sellerId auction
    /\ Auction.title auction' = Auction.title auction
    /\ Auction.shipping auction' = Auction.shipping auction
    /\ Auction.forkliftOnSite auction' = Auction.forkliftOnSite auction
    /\ Auction.paymentTerms auction' = Auction.paymentTerms auction
    /\ (Auction.status auction' = Auction.status auction
        \/ Auction.status auction' = "SOLD")
    /\ Auction.bids auction' = Auction.bids auction ++ newBids.
Proof.
  intros Ha. destruct (run_auction ops db auctionId auction Ha) as (x & H & E).
  destruct E as (E1 & E2 & E3 & E4 & E5 & E6 & E7 & E8 & [s E9]).
  exists x, s. repeat split; assumption.
Qed.

(** X28. SOLD is final for an auction: once the auction an id resolves
    to is SOLD, after any run of operations it still resolves, is still
    SOLD with the same box list, and is not offered on the buyers'
    marketplace. *)
Theorem sold_auction_stays_sold
  (db : Db.t) (ops : list Op) (auctionId : string) (auction : Auction.t) :
  find_auction db auctionId = Some auction ->
  Auction.status auction = "SOLD" ->
  exists auction',
    find_auction (run db ops) auctionId = Some auction'
    /\ Auction.status auction' = "SOLD"
    /\ Auction.boxIds auction' = Auction.boxIds auction
    /\ ~ In auction' (marketplace (run db ops)).
Proof.
  intros Ha Hs. destruct (run_auction ops db auctionId auction Ha) as (x & H & E).
  destruct E as (_ & _ & _ & _ & _ & _ & E7 & E8 & _).
  assert (Hx : Auction.status x = "SOLD").
  { destruct E8 as [E8|E8]; [now rewrite E8|exact E8]. }
  exists x. split; [exact H|]. split; [exact Hx|]. split; [exact E7|].
  unfold marketplace. intros Hin. apply filter_In in Hin.
  destruct Hin as [_ Hin]. rewrite Hx in Hin. discriminate.
Qed.

(** What each operation does to the bid collection. *)
Lemma step_bids db op :
  Db.bids (fst (step db op)) = Db.bids db
  \/ (exists rnd buyer a offers x bid,
        op = SubmitBid rnd buyer a offers
        /\ find_auction db a = Some x
        /\ Bid.auctionId bid = a /\ Bid.id bid = JS.makeId "BID" rnd
        /\ Bid.status bid = "SUBMITTED"
        /\ Db.bids (fst (step db op)) = Db.bids db ++ [bid])
  \/ (exists b0 f,
        Db.bids (fst (step db op)) = update_first (is_bid b0) f (Db.bids db)
        /\ forall x, bid_evolves x (f x)).
Proof.
  destruct op as
    [rnd u p n r par|rnd s data|rnd b part|b|rnd s data|rnd buyer a offers
    |b approve|rnd now b approve]; unfold step; rewrite step_fst.
  - left. apply createUser_bids.
  - now left.
  - left. apply addPart_bids.
  - left. apply finalizeBox_bids.
  - left. apply createAuction_bids.
  - unfold submitBid. destruct (find_auction db a) as [x|] eqn:Ha; [|now left].
    destruct (PrimFloat.leb _ _); [now left|].
    right. left. cbv zeta. cbn [fst Db.bids Db.set_auctions Db.set_bids].
    eexists rnd, buyer, a, offers, x, _. repeat split; try exact Ha.
    all: reflexivity.
  - unfold setBidSellerStatus. destruct (find_bid db b); [|now left].
    right. right. cbn [fst Db.bids Db.set_bids].
    eexists _, _. split; [reflexivity|].
    intros x. unfold bid_evolves. destruct approve; simpl; repeat split; auto.
  - unfold setBidAdminStatus. destruct (find_bid db b) as [bid|]; [|now left].
    destruct (negb _); [now left|].
    destruct (find_auction db (Bid.auctionId bid)) as [auction|]; [|now left].
    right. right. destruct approve; cbv zeta; cbn [fst].
    + cbn [Db.bids Db.set_ledger]. rewrite setBoxStatus_all_bids.
      cbn [Db.bids Db.set_auctions Db.set_bids].
      eexists _, _. split; [reflexivity|].
      intros x. unfold bid_evolves. simpl. repeat split; auto.
    + cbn [Db.bids Db.set_bids].
      eexists _, _. split; [reflexivity|].
      intros x. unfold bid_evolves. simpl. repeat split; auto.
Qed.

Lemma evolves_id_bid x y : bid_evolves x y -> Bid.id y = Bid.id x.
Proof. intros H. apply H. Qed.

(** A resolved bid stays resolved along a step, and evolves. *)
Lemma step_bid db op b x :
  find_bid db b = Some x ->
  exists x', find_bid (fst (step db op)) b = Some x' /\ bid_evolves x x'.
Proof.
  intros Hb.
  destruct (step_bids db op)
    as [E|[(rnd & buyer & a & offers & y & bid & _ & _ & _ & _ & _ & E)
          |(b0 & f & E & Hf)]].
  - exists x. rewrite (find_bid_frame db) by exact E.
    split; [exact Hb|apply bid_evolves_refl].
  - exists x. unfold find_bid in *. rewrite E, find_app, Hb.
    split; [reflexivity|apply bid_evolves_refl].
  - unfold find_bid in *. rewrite E.
    destruct (string_dec b0 b) as [->|Hne].
    + rewrite find_update_first_same.
      * rewrite Hb. exists (f x). split; [reflexivity|apply Hf].
      * intros y. unfold is_bid. now rewrite (evolves_id_bid y (f y)).
    + rewrite find_bid_update_other; auto.
      * exists x. split; [exact Hb|apply bid_evolves_refl].
      * intros y. now apply evolves_id_bid.
Qed.

Lemma run_bid ops : forall db b x,
  find_bid db b = Some x ->
  exists x', find_bid (run db ops) b = Some x' /\ bid_evolves x x'.
Proof.
  induction ops as [|op rest IH]; intros db b x Hb.
  - exists x. split; [exact Hb|apply bid_evolves_refl].
  - rewrite run_cons. destruct (step_bid db op b x Hb) as (x1 & H1 & E1).
    destruct (IH _ b x1 H1) as (x2 & H2 & E2).
    exists x2. split; [exact H2|]. eapply bid_evolves_trans; eauto.
Qed.

(** X13. The offer of a bid is fixed at submission: along any run the bid
    an id resolves to stays resolved with the same auction, buyer, line
    offers and total, and an approval flag that is set is never
    cleared. *)
Theorem bid_offer_fixed
  (db : Db.t) (ops : list Op) (bidId : string) (bid : Bid.t) :
  find_bid db bidId = Some bid ->
  exists bid',
    find_bid (run db ops) bidId = Some bid'
    /\ Bid.auctionId bid' = Bid.auctionId bid
    /\ Bid.buyerId bid' = Bid.buyerId bid
    /\ Bid.lineOffers bid' = Bid.lineOffers bid
    /\ Bid.total bid' = Bid.total bid
    /\ (Bid.sellerApproved bid = true -> Bid.sellerApproved bid' = true)
    /\ (Bid.adminApproved bid = true -> Bid.adminApproved bid' = true).
Proof.
  intros Hb. destruct (run_bid ops db bidId bid Hb) as (x & H & E).
  destruct E as (_ & E2 & E3 & E4 & E5 & E6 & E7).
  exists x. repeat split; assumption.
Qed.

(** The ledger after a step: the same, or one more entry at the end. *)
Lemma step_ledger_prefix db op :
  is_prefix (Db.ledger db) (Db.ledger (fst (step db op))).
Proof.
  destruct op as
    [rnd u p n r par|rnd s data|rnd b part|b|rnd s data|rnd buyer a offers
    |b approve|rnd now b approve]; unfold step; rewrite step_fst.
  - unfold createUser. destruct (find _ _); apply is_prefix_refl.
  - apply is_prefix_refl.
  - unfold addPart. destruct (find_box db b); [|apply is_prefix_refl].
    destruct (_ && _); [apply is_prefix_refl|].
    destruct (_ && _); apply is_prefix_refl.
  - unfold finalizeBox. destruct (find_box db b) as [bx|]; [|apply is_prefix_refl].
    destruct (Box.parts bx); [apply is_prefix_refl|].
    destruct (negb _); apply is_prefix_refl.
  - unfold createAuction. destruct (validate_boxes _ _); [apply is_prefix_refl|].
    cbv zeta. cbn [fst]. rewrite setBoxStatus_all_ledger. apply is_prefix_refl.
  - unfold submitBid. destruct (find_auction db a); [|apply is_prefix_refl].
    destruct (PrimFloat.leb _ _); apply is_prefix_refl.
  - unfold setBidSellerStatus. destruct (find_bid db b); apply is_prefix_refl.
  - unfold setBidAdminStatus. destruct (find_bid db b) as [bid|];
      [|apply is_prefix_refl].
    destruct (negb _); [apply is_prefix_refl|].
    destruct (find_auction db (Bid.auctionId bid)) as [auction|];
      [|apply is_prefix_refl].
    destruct approve; cbv zeta; cbn [fst]; [|apply is_prefix_refl].
    cbn [Db.ledger Db.set_ledger]. rewrite setBoxStatus_all_ledger.
    eexists. reflexivity.
Qed.

(** X14. The ledger is append-only: after any run the ledger starts with
    the entries it had before, unchanged and in order, followed by exactly
    one new entry per successful admin approval. *)
Theorem ledger_append_only (db : Db.t) (ops : list Op) :
  exists added,
    Db.ledger (run db ops) = Db.ledger db ++ added
    /\ length added = successes is_any_approval db ops.
Proof.
  assert (H : is_prefix (Db.ledger db) (Db.ledger (run db ops))).
  { revert db. induction ops as [|op rest IH]; intros db;
      [apply is_prefix_refl|].
    rewrite run_cons. eapply is_prefix_trans; [apply step_ledger_prefix|apply IH]. }
  destruct H as [added E]. exists added. split; [exact E|].
  pose proof (run_ledger ops db) as L. rewrite E, length_app in L. lia.
Qed.

(** ** Referential integrity *)

Lemma step_bids_resolve db op :
  bids_resolve db -> bids_resolve (fst (step db op)).
Proof.
  intros H b' Hin.
  assert (Hold : forall b, In b (Db.bids db) ->
            exists a, find_auction (fst (step db op)) (Bid.auctionId b) = Some a).
  { intros b Hb. destruct (H b Hb) as (a & Ha).
    destruct (step_auction db op _ a Ha) as (a' & Ha' & _). now exists a'. }
  destruct (step_bids db op)
    as [E|[(rnd & buyer & a & offers & y & bid & _ & Hy & Hid & _ & _ & E)
          |(b0 & f & E & Hf)]]; rewrite E in Hin.
  - now apply Hold.
  - apply in_app_or in Hin. destruct Hin as [Hin|[<-|[]]]; [now apply Hold|].
    rewrite Hid. destruct (step_auction db op _ y Hy) as (a' & Ha' & _).
    now exists a'.
  - apply in_update_first in Hin. destruct Hin as [Hin|(x & Hx & _ & ->)];
      [now apply Hold|].
    destruct (Hf x) as (_ & -> & _). now apply Hold.
Qed.

Lemma reachable_bids_resolve db : reachable db -> bids_resolve db.
Proof.
  intros (r1 & r2 & r3 & ops & ->).
  assert (H : forall ops d, bids_resolve d -> bids_resolve (run d ops)).
  { clear. induction ops as [|op rest IH]; intros d Hd; [exact Hd|].
    rewrite run_cons. apply IH. now apply step_bids_resolve. }
  apply H. intros b [].
Qed.

(** X15. In a document reachable from the initial one every bid's
    auction resolves, so [setBidAdminStatus] never answers
    AuctionNotFound there: a bid in status SELLER_ACCEPTED can always be
    approved or rejected by the admin. *)
Theorem admin_decision_never_dangles
  (db : Db.t) (rnd now bidId : string) (approve : bool) :
  reachable db ->
  snd (setBidAdminStatus db rnd now bidId approve) <> Err AuctionNotFound
  /\ (forall bid, find_bid db bidId = Some bid ->
        Bid.status bid = "SELLER_ACCEPTED" ->
        is_ok (snd (setBidAdminStatus db rnd now bidId approve)) = true).
Proof.
  intros Hr. apply reachable_bids_resolve in Hr.
  unfold setBidAdminStatus.
  destruct (find_bid db bidId) as [bid|] eqn:Hb.
  - destruct (Hr bid) as (a & Ha).
    { apply find_some in Hb. apply Hb. }
    destruct (Bid.status bid =? "SELLER_ACCEPTED") eqn:Hs; simpl negb; cbv iota.
    + rewrite Ha. split.
      * destruct approve; simpl; discriminate.
      * intros b _ _. now destruct approve.
    + split; [simpl; discriminate|].
      intros b Eb Hst. inversion Eb; subst b. rewrite Hst in Hs. discriminate.
  - split; [simpl; discriminate|]. intros b Eb. discriminate.
Qed.

(** ** The settlement path *)


(** ** Decisions on a bid *)

(** X17. [setBidSellerStatus(bidId, true)] on an existing bid, whatever
    its state, sets its status to SELLER_ACCEPTED and its seller-approved
    flag, keeps its offer and its admin flag, and touches no other
    collection; on an unknown bid id both decision operations answer
    BidNotFound and change nothing. *)
Theorem seller_acceptance (db : Db.t) (bidId : string) :
  (forall bid, find_bid db bidId = Some bid ->
     exists db' bid',
       setBidSellerStatus db bidId true = (db', Ok bid')
       /\ find_bid db' bidId = Some bid'
       /\ Bid.status bid' = "SELLER_ACCEPTED"
       /\ Bid.sellerApproved bid' = true
       /\ Bid.adminApproved bid' = Bid.adminApproved bid
       /\ Bid.total bid' = Bid.total bid
       /\ Bid.lineOffers bid' = Bid.lineOffers bid
       /\ Db.boxes db' = Db.boxes db /\ Db.auctions db' = Db.auctions db
       /\ Db.ledger db' = Db.ledger db /\ Db.users db' = Db.users db)
  /\ (find_bid db bidId = None ->
      forall rnd now approve,
        setBidSellerStatus db bidId approve = (db, Err BidNotFound)
        /\ setBidAdminStatus db rnd now bidId approve = (db, Err BidNotFound)).
Proof.
  split.
  - intros bid Hb. unfold setBidSellerStatus. rewrite Hb.
    eexists _, _. split; [reflexivity|]. split.
    + unfold find_bid in *. simpl.
      rewrite find_update_first_same by reflexivity. now rewrite Hb.
    + repeat split.
  - intros Hb rnd now approve.
    unfold setBidSellerStatus, setBidAdminStatus. now rewrite Hb.
Qed.

(** X18. An admin rejection has no cascade: on a bid in status
    SELLER_ACCEPTED whose auction exists, [setBidAdminStatus(bidId,
    false)] sets the bid's status to ADMIN_REJECTED, keeps both approval
    flags, and leaves the auctions, the boxes, the ledger and the users
    as they were. *)
Theorem admin_rejection_no_cascade
  (db : Db.t) (rnd now bidId : string) (bid : Bid.t) (auction : Auction.t) :
  find_bid db bidId = Some bid ->
  Bid.status bid = "SELLER_ACCEPTED" ->
  find_auction db (Bid.auctionId bid) = Some auction ->
  exists db' bid',
    setBidAdminStatus db rnd now bidId false = (db', Ok bid')
    /\ find_bid db' bidId = Some bid'
    /\ Bid.status bid' = "ADMIN_REJECTED"
    /\ Bid.adminApproved bid' = Bid.adminApproved bid
    /\ Bid.sellerApproved bid' = Bid.sellerApproved bid
    /\ Db.auctions db' = Db.auctions db /\ Db.boxes db' = Db.boxes db
    /\ Db.ledger db' = Db.ledger db /\ Db.users db' = Db.users db.
Proof.
  intros Hb Hs Ha. unfold setBidAdminStatus. rewrite Hb, Hs, Ha.
  simpl negb. cbv iota.
  eexists _, _. split; [reflexivity|]. split.
  - unfold find_bid in *. simpl.
    rewrite find_update_first_same by reflexivity. now rewrite Hb.
  - repeat split.
Qed.


(** ** Invariants of the boxes *)

Lemma Forall_setBoxStatus_all (P : Box.t -> Prop) s ids : forall db,
  (forall b, P b -> P (Box.set_status s b)) ->
  Forall P (Db.boxes db) -> Forall P (Db.boxes (setBoxStatus_all db ids s)).
Proof.
  induction ids as [|x r IH]; intros db HP H; [exact H|].
  rewrite setBoxStatus_all_cons. apply IH; [exact HP|].
  unfold setBoxStatus. simpl. apply Forall_update_first; [exact H|].
  intros b _. apply HP.
Qed.




Lemma step_status_ok db op :
  Forall (fun b => box_status_ok (Box.status b) = true) (Db.boxes db) ->
  Forall (fun b => box_status_ok (Box.status b) = true)
         (Db.boxes (fst (step db op))).
Proof.
  intros H. destruct op as
    [rnd u p n r par|rnd s data|rnd b part|b|rnd s data|rnd buyer a offers
    |b approve|rnd now b approve]; unfold step; rewrite step_fst.
  - now rewrite createUser_boxes.
  - simpl. apply Forall_app. split; [exact H|]. repeat constructor.
  - unfold addPart. destruct (find_box db b) as [bx|]; [|exact H].
    destruct (_ && _); [exact H|]. destruct (_ && _); [exact H|].
    cbv zeta. cbn [fst Db.boxes Db.set_boxes].
    apply Forall_update_first; [exact H|]. intros x _ Hx. exact Hx.
  - unfold finalizeBox. destruct (find_box db b) as [bx|]; [|exact H].
    destruct (Box.parts bx); [exact H|]. destruct (negb _); [exact H|].
    cbn [fst Db.boxes Db.set_boxes].
    apply Forall_update_first; [exact H|]. intros x _ _. reflexivity.
  - unfold createAuction. destruct (validate_boxes _ _); [exact H|].
    cbv zeta. cbn [fst]. apply Forall_setBoxStatus_all; [|exact H].
    intros x _. reflexivity.
  - now rewrite submitBid_boxes.
  - now rewrite setBidSellerStatus_boxes.
  - unfold setBidAdminStatus. destruct (find_bid db b) as [bid|]; [|exact H].
    destruct (negb _); [exact H|].
    destruct (find_auction db (Bid.auctionId bid)) as [auction|]; [|exact H].
    destruct approve; cbv zeta; cbn [fst]; [|exact H].
    cbn [Db.boxes Db.set_ledger]. apply Forall_setBoxStatus_all; [|exact H].
    intros x _. reflexivity.
Qed.

Lemma count_status_cons s b r :
  count_status s (b :: r)
  = (if Box.status b =? s then 1 else 0) + count_status s r.
Proof. unfold count_status. simpl. now destruct (Box.status b =? s). Qed.

Lemma count_status_partition (l : list Box.t) :
  Forall (fun b => box_status_ok (Box.status b) = true) l ->
  count_status "WIP" l + count_status "FINISHED" l
  + count_status "IN_AUCTION" l + count_status "SOLD" l = length l.
Proof.
  induction l as [|b r IH]; intros H; [reflexivity|].
  inversion H as [|? ? Hb Hr]; subst. specialize (IH Hr).
  rewrite !count_status_cons. cbn [length].
  unfold box_status_ok in Hb.
  destruct (Box.status b =? "WIP") eqn:E1.
  { apply String.eqb_eq in E1. rewrite E1. simpl. lia. }
  destruct (Box.status b =? "FINISHED") eqn:E2.
  { apply String.eqb_eq in E2. rewrite E2. simpl. lia. }
  destruct (Box.status b =? "IN_AUCTION") eqn:E3.
  { apply String.eqb_eq in E3. rewrite E3. simpl. lia. }
  destruct (Box.status b =? "SOLD") eqn:E4; [|discriminate].
  lia.
Qed.

(** X21. In every document reachable from the initial one each box is in
    one of the four statuses, so the four counters of the seller's
    dashboard (WIP, Finished, In Auction, Sold) add up to the number of
    the seller's boxes. *)
Theorem dashboard_counts_add_up (db : Db.t) (userId : string) :
  reachable db ->
  Forall (fun b => box_status_ok (Box.status b) = true) (Db.boxes db)
  /\ count_status "WIP" (myBoxes db userId)
     + count_status "FINISHED" (myBoxes db userId)
     + count_status "IN_AUCTION" (myBoxes db userId)
     + count_status "SOLD" (myBoxes db userId)
     = length (myBoxes db userId).
Proof.
  intros (r1 & r2 & r3 & ops & ->).
  assert (H : forall ops d,
             Forall (fun b => box_status_ok (Box.status b) = true) (Db.boxes d) ->
             Forall (fun b => box_status_ok (Box.status b) = true)
                    (Db.boxes (run d ops))).
  { clear. induction ops as [|op rest IH]; intros d Hd; [exact Hd|].
    rewrite run_cons. apply IH. now apply step_status_ok. }
  assert (Hok := H ops (initial r1 r2 r3) (Forall_nil _)).
  split; [exact Hok|]. apply count_status_partition.
  unfold myBoxes. rewrite Forall_forall in *. intros b Hb.
  apply filter_In in Hb. now apply Hok.
Qed.

(** ** The bid form *)

Lemma has_false_iff o k : JSO.has o k = false <-> ~ In k (JS.keys o).
Proof.
  unfold JSO.has, JS.keys. induction o as [|[k' v'] r IH]; simpl; [tauto|].
  destruct (k' =? k) eqn:E; simpl.
  - apply String.eqb_eq in E. split; [discriminate|]. intros H. exfalso. auto.
  - apply String.eqb_neq in E. rewrite IH. tauto.
Qed.

Lemma replace_keys o k v : JS.keys (JSO.replace o k v) = JS.keys o.
Proof.
  unfold JS.keys. induction o as [|[k' v'] r IH]; simpl; [reflexivity|].
  destruct (k' =? k); simpl; [reflexivity|]. now rewrite IH.
Qed.

Lemma replace_Forall (Q : string * JS.value -> Prop) o k v :
  Forall Q o -> Q (k, v) -> Forall Q (JSO.replace o k v).
Proof.
  intros H Hq. induction o as [|[k' v'] r IH]; simpl; [constructor|].
  inversion H as [|? ? Hx Hr]; subst.
  destruct (k' =? k) eqn:E.
  - apply String.eqb_eq in E. subst k'. now constructor.
  - constructor; auto.
Qed.

Lemma insert_index_In o n k v e :
  In e (JSO.insert_index o n k v) <-> e = (k, v) \/ In e o.
Proof.
  induction o as [|[k' v'] r IH]; simpl; [intuition|].
  destruct (JSO.array_index k') as [n'|]; [|simpl; intuition].
  destruct (n' <? n)%Z; simpl; [rewrite IH|]; intuition.
Qed.

Lemma insert_index_NoDup o n k v :
  NoDup (JS.keys o) -> ~ In k (JS.keys o) ->
  NoDup (JS.keys (JSO.insert_index o n k v)).
Proof.
  unfold JS.keys. induction o as [|[k' v'] r IH]; simpl; intros Hnd Hk.
  - repeat constructor. intros [].
  - inversion Hnd as [|? ? Hx Hr]; subst.
    assert (Hins : NoDup (k :: k' :: map fst r)).
    { constructor; [exact Hk|exact Hnd]. }
    destruct (JSO.array_index k') as [n'|]; [|exact Hins].
    destruct (n' <? n)%Z; [|exact Hins]. simpl. constructor.
    + intros Hin. apply in_map_iff in Hin. destruct Hin as ([k2 v2] & E & Hin).
      simpl in E. subst k2. apply insert_index_In in Hin.
      destruct Hin as [Hin|Hin].
      * inversion Hin; subst. apply Hk. now left.
      * apply Hx. apply in_map_iff. now exists (k', v2).
    + apply IH; [exact Hr|]. intros H. apply Hk. now right.
Qed.

(** Writing a property keeps the keys distinct and every entry within a
    predicate the new entry satisfies. *)
Lemma set_invariant (Q : string * JS.value -> Prop) o k v :
  NoDup (JS.keys o) -> Forall Q o -> Q (k, v) ->
  NoDup (JS.keys (JSO.set o k v)) /\ Forall Q (JSO.set o k v).
Proof.
  intros Hnd HQ Hq. unfold JSO.set.
  destruct (JSO.has o k) eqn:Eh.
  - split; [now rewrite replace_keys|now apply replace_Forall].
  - apply has_false_iff in Eh.
    destruct (JSO.array_index k) as [n|].
    + split; [now apply insert_index_NoDup|].
      rewrite Forall_forall in *. intros e He. apply insert_index_In in He.
      destruct He as [->|He]; auto.
    + split.
      * unfold JS.keys in *. rewrite map_app. simpl. now apply NoDup_snoc.
      * apply Forall_app. split; [exact HQ|]. now repeat constructor.
Qed.

(** Reading a property that exists yields an entry of the object. *)
Lemma get_In o k : In k (JS.keys o) -> In (k, JS.get o k) o.
Proof.
  unfold JS.keys. induction o as [|[k' v'] r IH]; simpl; [tauto|].
  intros H. destruct (k' =? k) eqn:E.
  - apply String.eqb_eq in E. subst k'. now left.
  - apply String.eqb_neq in E. right. apply IH. destruct H as [H|H]; [contradiction|exact H].
Qed.

(** A positive number is neither zero nor [NaN]. *)
Lemma positive_is_truthy (v : float) :
  PrimFloat.ltb 0 v = true -> PrimFloat.is_nan v = false ->
  JS.truthy_num v = true /\ PrimFloat.eqb v 0 = false.
Proof.
  intros Hlt Hnan.
  assert (E : PrimFloat.eqb v 0 = false).
  { rewrite ltb_spec in Hlt. rewrite eqb_spec.
    change (Prim2SF 0) with (S754_zero false) in *.
    unfold SFltb, SFeqb in *.
    destruct (Prim2SF v) as [s| s| |s m e]; simpl in *; try discriminate;
      destruct s; simpl in *; try discriminate; reflexivity. }
  split; [|exact E]. unfold JS.truthy_num. now rewrite Hnan, E.
Qed.

(** What the form gathers: distinct keys, each with a positive number read
    from an input of that key. *)
Lemma collect_offers_entries (inputs : list (string * string)) :
  NoDup (JS.keys (collect_offers inputs))
  /\ Forall (fun e => exists raw,
               In (fst e, raw) inputs
               /\ snd e = JS.Num (JS.parseFloat_str raw)
               /\ PrimFloat.is_nan (JS.parseFloat_str raw) = false
               /\ PrimFloat.ltb 0 (JS.parseFloat_str raw) = true)
            (collect_offers inputs).
Proof.
  unfold collect_offers.
  set (Q := fun e : string * JS.value => exists raw,
               In (fst e, raw) inputs
               /\ snd e = JS.Num (JS.parseFloat_str raw)
               /\ PrimFloat.is_nan (JS.parseFloat_str raw) = false
               /\ PrimFloat.ltb 0 (JS.parseFloat_str raw) = true).
  assert (H : forall l acc,
             (forall x, In x l -> In x inputs) ->
             NoDup (JS.keys acc) -> Forall Q acc ->
             let r := fold_left
               (fun offers inp =>
                  let v := JS.parseFloat_str (snd inp) in
                  if negb (PrimFloat.is_nan v) && PrimFloat.ltb 0 v
                  then JSO.set offers (fst inp) (JS.Num v) else offers) l acc in
             NoDup (JS.keys r) /\ Forall Q r).
  { induction l as [|[k raw] l IH]; intros acc Hsub Hnd HQ; [split; assumption|].
    simpl. apply IH; [intros x Hx; apply Hsub; now right| |];
    destruct (negb (PrimFloat.is_nan (JS.parseFloat_str raw))
              && PrimFloat.ltb 0 (JS.parseFloat_str raw)) eqn:E;
      try assumption;
      apply andb_true_iff in E; destruct E as [E1 E2];
      apply negb_true_iff in E1;
      apply (set_invariant Q); try assumption;
      exists raw; repeat split; try assumption; apply Hsub; now left. }
  apply H; [auto|constructor|constructor].
Qed.

(** X22. A bid submitted through the bid form holds only positive
    amounts: its line offers have distinct part ids, each amount is the
    positive number parsed from an input of that part (blank, zero,
    negative and non-numeric inputs are dropped), none is [NaN], and so
    the bid's total is the plain sum of its amounts. *)
Theorem submitBid_click_amounts
  (db db' : Db.t) (rnd userId auctionId : string)
  (inputs : list (string * string)) (bid : Bid.t) :
  submitBid_click db rnd userId auctionId inputs = (db', Ok bid) ->
  NoDup (map LineOffer.partId (Bid.lineOffers bid))
  /\ Forall (fun o => exists raw,
               In (LineOffer.partId o, raw) inputs
               /\ LineOffer.amount o = JS.parseFloat_str raw
               /\ PrimFloat.is_nan (LineOffer.amount o) = false
               /\ PrimFloat.ltb 0 (LineOffer.amount o) = true)
            (Bid.lineOffers bid)
  /\ Bid.total bid = plain_sum (Bid.lineOffers bid).
Proof.
  intros H. unfold submitBid_click, submitBid in H.
  destruct (find_auction db auctionId); [|discriminate].
  destruct (PrimFloat.leb _ _); [discriminate|].
  inversion H; subst; clear H. cbn [Bid.lineOffers Bid.total].
  destruct (collect_offers_entries inputs) as [Hnd HQ].
  set (offers := collect_offers inputs) in *.
  assert (Hall : Forall (fun o => exists raw,
               In (LineOffer.partId o, raw) inputs
               /\ LineOffer.amount o = JS.parseFloat_str raw
               /\ PrimFloat.is_nan (LineOffer.amount o) = false
               /\ PrimFloat.ltb 0 (LineOffer.amount o) = true)
            (build_lineOffers offers)).
  { unfold build_lineOffers. rewrite Forall_map. rewrite Forall_forall.
    intros k Hk. apply get_In in Hk. rewrite Forall_forall in HQ.
    destruct (HQ _ Hk) as (raw & Hin & Hv & Hnan & Hpos). simpl in Hin, Hv.
    exists raw. simpl. rewrite Hv.
    destruct (positive_is_truthy _ Hpos Hnan) as [Ht Hz].
    unfold JS.or_val. simpl. rewrite Ht. simpl. rewrite Hz.
    repeat split; assumption. }
  split; [now rewrite build_lineOffers_keys|]. split; [exact Hall|].
  apply sum_offers_plain. unfold all_numeric. apply forallb_forall.
  intros o Ho. rewrite Forall_forall in Hall.
  destruct (Hall o Ho) as (_ & _ & _ & Hn & _). now rewrite Hn.
Qed.

(** ** The screens *)

Lemma in_update_first_found {A : Type} (p : A -> bool) (f : A -> A)
  (l : list A) (x : A) :
  find p l = Some x -> In (f x) (update_first p f l).
Proof.
  induction l as [|y r IH]; simpl; [discriminate|].
  destruct (p y) eqn:E.
  - intros H. inversion H; subst. now left.
  - intros H. right. now apply IH.
Qed.

(** X23. A bid that [submitBid] has created is listed on the "Bids"
    screen of the seller of the auction it was made on. *)
Theorem new_bid_reaches_seller
  (db db' : Db.t) (rnd buyerId auctionId : string) (offers : JS.object)
  (auction : Auction.t) (bid : Bid.t) :
  find_auction db auctionId = Some auction ->
  submitBid db rnd buyerId auctionId offers = (db', Ok bid) ->
  In bid (bidsReceived db' (Auction.sellerId auction))
  /\ Bid.status bid = "SUBMITTED".
Proof.
  intros Ha H.
  destruct (submitBid_cases db rnd buyerId auctionId offers auction Ha)
    as [[_ E]|[_ (d & E & Hb & Hf)]]; rewrite E in H; [discriminate|].
  inversion H; subst d bid; clear H. split; [|reflexivity].
  unfold bidsReceived. apply filter_In. split.
  - rewrite Hb. apply in_or_app. right. now left.
  - apply existsb_exists. exists (JS.makeId "BID" rnd).
    split; [|apply String.eqb_refl].
    apply in_flat_map.
    exists (Auction.push_bid (JS.makeId "BID" rnd) auction). split.
    + apply filter_In. split; [|apply String.eqb_refl].
      apply find_some in Hf. apply Hf.
    + simpl. apply in_or_app. right. now left.
Qed.

(** X24. The "Create Auction" button cannot fail on a box that is not
    ready: box ids being unique, a click with at least one finished box
    ticked creates an auction of exactly the ticked boxes, owned by the
    user, and every one of these boxes resolves to a box of that user now
    IN_AUCTION; with no box ticked the engine is not called. *)
Theorem createAuction_click_succeeds
  (db : Db.t) (rnd userId title : string) (checked : string -> bool)
  (shipping paymentTerms : list string) (forklift : bool) :
  NoDup (map Box.id (Db.boxes db)) ->
  let ticked :=
    map Box.id (filter (fun b => checked (Box.id b)) (finishedBoxes db userId)) in
  (ticked = [] ->
   createAuction_click db rnd userId checked title shipping forklift paymentTerms
   = (db, None))
  /\ (ticked <> [] ->
      exists db' auction,
        createAuction_click db rnd userId checked title shipping forklift
          paymentTerms = (db', Some (Ok auction))
        /\ Auction.boxIds auction = ticked
        /\ Auction.sellerId auction = userId
        /\ Auction.status auction = "IN_AUCTION"
        /\ forall bxId, In bxId ticked ->
             exists bx, find_box db' bxId = Some bx
                        /\ Box.status bx = "IN_AUCTION"
                        /\ Box.sellerId bx = userId).
Proof.
  intros Hnd ticked. unfold createAuction_click. fold ticked.
  split; [intros ->; reflexivity|]. intros Hne.
  assert (Hall : forall bxId, In bxId ticked ->
            exists bx, find_box db bxId = Some bx
                       /\ Box.status bx = "FINISHED" /\ Box.sellerId bx = userId).
  { intros bxId Hin. unfold ticked in Hin. apply in_map_iff in Hin.
    destruct Hin as (bx & <- & Hin). apply filter_In in Hin.
    destruct Hin as [Hin _]. unfold finishedBoxes in Hin.
    apply filter_In in Hin. destruct Hin as [Hin Hc].
    apply andb_true_iff in Hc. destruct Hc as [Hc1 Hc2].
    apply String.eqb_eq in Hc1, Hc2.
    exists bx. split; [|split; assumption].
    unfold find_box, is_box. now apply (find_unique Box.id). }
  destruct ticked as [|t ts] eqn:Et; [contradiction|]. rewrite <- Et in *.
  unfold createAuction. cbn [Auction.in_boxIds].
  rewrite (proj2 (validate_boxes_none db ticked)).
  - cbv zeta. eexists _, _. split; [reflexivity|].
    cbn [Auction.boxIds Auction.sellerId Auction.status].
    repeat (split; [reflexivity|]).
    intros bxId Hin. destruct (Hall bxId Hin) as (bx & H1 & H2 & H3).
    exists (Box.set_status "IN_AUCTION" bx). rewrite find_box_all_in by exact Hin.
    change (find_box (Db.set_auctions _ db) bxId) with (find_box db bxId).
    rewrite H1. repeat split. exact H3.
  - intros bxId Hin. destruct (Hall bxId Hin) as (bx & H1 & H2 & _).
    now exists bx.
Qed.

(** ** Runs driven by the buttons *)

Lemma map_update_first {A B : Type} (key : A -> B) (p : A -> bool)
  (f : A -> A) (l : list A) :
  (forall x, key (f x) = key x) ->
  map key (update_first p f l) = map key l.
Proof.
  intros H. induction l as [|x r IH]; simpl; [reflexivity|].
  destruct (p x); simpl; [now rewrite H|now rewrite IH].
Qed.








(** X26. The approval queue follows the decisions: a bid the seller has
    accepted is listed on the admin's "Approvals" screen, and, bid ids
    being distinct, once the admin has approved or rejected a bid no bid
    with that id is listed there any more. *)
Theorem approval_queue (db : Db.t) (bidId : string) (bid : Bid.t) :
  NoDup (map Bid.id (Db.bids db)) ->
  find_bid db bidId = Some bid ->
  (forall db' bid',
     setBidSellerStatus db bidId true = (db', Ok bid') ->
     In bid' (pendingApprovals db'))
  /\ (forall rnd now approve db' bid',
        setBidAdminStatus db rnd now bidId approve = (db', Ok bid') ->
        forall y, In y (pendingApprovals db') -> Bid.id y <> bidId).
Proof.
  intros Hnd Hb. split.
  - intros db' bid' H. unfold setBidSellerStatus in H. rewrite Hb in H.
    inversion H; subst; clear H. unfold pendingApprovals. apply filter_In.
    split; [|reflexivity]. cbn [Db.bids Db.set_bids].
    exact (in_update_first_found (is_bid bidId) _ _ bid Hb).
  - intros rnd now approve db' bid' H y Hy Hid.
    unfold pendingApprovals in Hy. apply filter_In in Hy.
    destruct Hy as [Hin Hst]. apply String.eqb_eq in Hst.
    assert (Hfound : exists z, find_bid db' bidId = Some z
                               /\ Bid.status z <> "SELLER_ACCEPTED"
                               /\ map Bid.id (Db.bids db') = map Bid.id (Db.bids db)).
    { unfold setBidAdminStatus in H. rewrite Hb in H.
      destruct (negb (Bid.status bid =? "SELLER_ACCEPTED")); [discriminate|].
      destruct (find_auction db (Bid.auctionId bid)) as [auction|]; [|discriminate].
      destruct approve; cbv zeta in H; inversion H; subst; clear H;
        unfold find_bid in *.
      - cbn [Db.bids Db.set_ledger]. rewrite setBoxStatus_all_bids.
        cbn [Db.bids Db.set_auctions Db.set_bids].
        rewrite find_update_first_same by reflexivity. rewrite Hb.
        eexists. split; [reflexivity|]. split; [simpl; discriminate|].
        now apply map_update_first.
      - cbn [Db.bids Db.set_bids].
        rewrite find_update_first_same by reflexivity. rewrite Hb.
        eexists. split; [reflexivity|]. split; [simpl; discriminate|].
        now apply map_update_first. }
    destruct Hfound as (z & Hz & Hzs & Hids).
    assert (Hy' : find_bid db' bidId = Some y).
    { rewrite <- Hid. unfold find_bid, is_bid.
      apply (find_unique Bid.id); [now rewrite Hids|exact Hin]. }
    rewrite Hz in Hy'. inversion Hy'; subst z. contradiction.
Qed.

(** ** The box form *)

Lemma or_num_not_nan x : PrimFloat.is_nan (JS.or_num (Some x) 0) = false.
Proof.
  unfold JS.or_num. destruct (JS.truthy_num x) eqn:E; [|reflexivity].
  unfold JS.truthy_num in E. apply negb_true_iff in E.
  now apply orb_false_iff in E.
Qed.

Lemma or_num_twice x :
  JS.or_num (Some (JS.or_num (Some x) 0)) 0 = JS.or_num (Some x) 0.
Proof.
  unfold JS.or_num. destruct (JS.truthy_num x) eqn:E; [now rewrite E|reflexivity].
Qed.

(** X27. A box created through the box form never stores [NaN]: count,
    gross and tare are the numbers parsed from the inputs, with 0 for an
    input that is blank, zero or not a number; the net is gross minus
    tare of the stored weights, with 0 when that difference is zero or
    undefined; at most the first five photos are kept; and the box starts
    in WIP with no part. *)
Theorem createBox_click_weights
  (db : Db.t) (rnd userId pkgName material unit count gross tare : string)
  (files : list string) :
  exists box,
    createBox_click db rnd userId pkgName material unit count gross tare files
    = (Db.set_boxes (Db.boxes db ++ [box]) db, Ok box)
    /\ Box.status box = "WIP" /\ Box.parts box = []
    /\ Box.sellerId box = userId
    /\ Box.count box = JS.or_num (Some (JS.parseFloat_str count)) 0
    /\ Box.gross box = JS.or_num (Some (JS.parseFloat_str gross)) 0
    /\ Box.tare box = JS.or_num (Some (JS.parseFloat_str tare)) 0
    /\ Box.net box = JS.or_num (Some (Box.gross box - Box.tare box)%float) 0
    /\ (JS.truthy_num (Box.gross box - Box.tare box)%float = true ->
        Box.net box = (Box.gross box - Box.tare box)%float)
    /\ PrimFloat.is_nan (Box.count box) = false
    /\ PrimFloat.is_nan (Box.gross box) = false
    /\ PrimFloat.is_nan (Box.tare box) = false
    /\ PrimFloat.is_nan (Box.net box) = false
    /\ Box.photos box = firstn 5 files
    /\ length (Box.photos box) <= 5.
Proof.
  eexists. split; [reflexivity|].
  cbn [Box.status Box.parts Box.sellerId Box.count Box.gross Box.tare Box.net
       Box.photos Box.in_net Box.in_gross Box.in_tare Box.in_count Box.in_photos
       JS.or_arr JS.to_num].
  rewrite !or_num_twice.
  repeat (split; [reflexivity|]).
  split.
  { intros H. unfold JS.or_num at 1 2. now rewrite H. }
  repeat (split; [apply or_num_not_nan|]).
  split; [reflexivity|]. apply firstn_le_length.
Qed.

(** ** The properties on the sample sessions *)

(** A witness of X2, on the end-to-end scenario. *)
Lemma usernames_stay_unique_witness :
  NoDup (map User.username (Db.users (run Scenario.start Scenario.ops))).
Proof.
  refine (proj1 (usernames_stay_unique Scenario.ops Scenario.start _)).
  vm_compute. repeat constructor; simpl; intuition discriminate.
Defined.


(** A witness of X4, on the end-to-end scenario. *)
Lemma session_round_trip_witness :
  getCurrentUser (setCurrentUser (Some Desk.admin)) Scenario.start
  = Some Desk.admin.
Proof.
  refine (proj1 (session_round_trip Scenario.start Desk.admin _ _ _)).
  - vm_compute. left. reflexivity.
  - vm_compute. repeat constructor; simpl; intuition discriminate.
  - discriminate.
Defined.


(** A witness of X8, on the end-to-end scenario. *)
Lemma box_status_never_backward_witness :
  exists box',
    find_box (run Scenario.filled (skipn 2 Scenario.ops)) "BOX-b1" = Some box'
    /\ box_rank (Box.status Scenario.box) <= box_rank (Box.status box').
Proof.
  refine (box_status_never_backward Scenario.filled (skipn 2 Scenario.ops)
            "BOX-b1" Scenario.box _).
  vm_compute. reflexivity.
Defined.

(** A witness of X9, on the end-to-end scenario. *)
Lemma box_material_locked_witness :
  exists box',
    find_box (run Scenario.filled (skipn 2 Scenario.ops)) "BOX-b1" = Some box'
    /\ Box.material box' = Box.material Scenario.box.
Proof.
  refine (box_material_locked Scenario.filled (skipn 2 Scenario.ops)
            "BOX-b1" Scenario.box _ _).
  - vm_compute. reflexivity.
  - discriminate.
Defined.

(** A witness of X10, on the end-to-end scenario. *)
Lemma box_parts_append_only_witness :
  exists box' added,
    find_box (run Scenario.filled (skipn 2 Scenario.ops)) "BOX-b1" = Some box'
    /\ Box.parts box' = Box.parts Scenario.box ++ added.
Proof.
  destruct (box_parts_append_only Scenario.filled (skipn 2 Scenario.ops)
              "BOX-b1" Scenario.box) as (box' & added & H1 & H2 & _).
  - vm_compute. reflexivity.
  - exists box', added. split; assumption.
Defined.

(** A witness of X11, on the end-to-end scenario. *)
Lemma box_never_listed_twice_witness :
  exists e,
    createAuction (run Scenario.listed (skipn 4 Scenario.ops)) "a2" "USR-m"
      Scenario.auction_data
    = (run Scenario.listed (skipn 4 Scenario.ops), Err e).
Proof.
  refine (box_never_listed_twice Scenario.finished Scenario.listed "a1" "USR-m"
            "BOX-b1" Scenario.auction_data Scenario.listed_auction _ _
            (skipn 4 Scenario.ops) "a2" "USR-m" Scenario.auction_data _).
  - vm_compute. reflexivity.
  - left. reflexivity.
  - left. reflexivity.
Defined.

(** A witness of X12, on the end-to-end scenario. *)
Lemma auction_fixed_at_creation_witness :
  exists auction' newBids,
    find_auction (run Scenario.listed (skipn 4 Scenario.ops)) "AUC-a1"
    = Some auction'
    /\ Auction.boxIds auction' = Auction.boxIds Scenario.listed_auction
    /\ Auction.bids auction' = Auction.bids Scenario.listed_auction ++ newBids.
Proof.
  destruct (auction_fixed_at_creation Scenario.listed (skipn 4 Scenario.ops)
              "AUC-a1" Scenario.listed_auction)
    as (a & nb & H1 & H2 & _ & _ & _ & _ & _ & _ & H9).
  - vm_compute. reflexivity.
  - exists a, nb. repeat split; assumption.
Defined.

(** A witness of X13, on the end-to-end scenario. *)
Lemma bid_offer_fixed_witness :
  exists bid',
    find_bid (run Scenario.submitted (skipn 5 Scenario.ops)) "BID-d1" = Some bid'
    /\ Bid.total bid' = Bid.total Scenario.submitted_bid.
Proof.
  destruct (bid_offer_fixed Scenario.submitted (skipn 5 Scenario.ops)
              "BID-d1" Scenario.submitted_bid)
    as (b & H1 & _ & _ & _ & H5 & _).
  - vm_compute. reflexivity.
  - exists b. split; assumption.
Defined.

(** The documents of the scenario are reachable. *)
Lemma reachable_final : reachable (run (initial "a" "m" "o") Scenario.ops).
Proof. exists "a", "m", "o", Scenario.ops. reflexivity. Defined.

Lemma reachable_accepted :
  reachable (run (initial "a" "m" "o") (firstn 6 Scenario.ops)).
Proof. exists "a", "m", "o", (firstn 6 Scenario.ops). reflexivity. Defined.

(** A witness of X15, on the end-to-end scenario. *)
Lemma admin_decision_never_dangles_witness :
  snd (setBidAdminStatus (run (initial "a" "m" "o") (firstn 6 Scenario.ops))
         "t1" "now" "BID-d1" false)
  <> Err AuctionNotFound.
Proof.
  exact (proj1 (admin_decision_never_dangles
                  (run (initial "a" "m" "o") (firstn 6 Scenario.ops))
                  "t1" "now" "BID-d1" false reachable_accepted)).
Defined.


(** A witness of X18, on the end-to-end scenario. *)
Lemma admin_rejection_no_cascade_witness :
  exists db' bid',
    setBidAdminStatus Scenario.accepted "t1" "now" "BID-d1" false = (db', Ok bid')
    /\ Bid.status bid' = "ADMIN_REJECTED"
    /\ Db.ledger db' = Db.ledger Scenario.accepted
    /\ Db.boxes db' = Db.boxes Scenario.accepted.
Proof.
  destruct (admin_rejection_no_cascade Scenario.accepted "t1" "now" "BID-d1"
              Scenario.bid Scenario.auction)
    as (db' & bid' & H1 & _ & H3 & _ & _ & _ & H7 & H8 & _).
  - vm_compute. reflexivity.
  - reflexivity.
  - vm_compute. reflexivity.
  - exists db', bid'. repeat split; assumption.
Defined.


(** A witness of X21, on the end-to-end scenario. *)
Lemma dashboard_counts_add_up_witness :
  count_status "WIP" (myBoxes (run (initial "a" "m" "o") Scenario.ops) "USR-m")
  + count_status "FINISHED"
      (myBoxes (run (initial "a" "m" "o") Scenario.ops) "USR-m")
  + count_status "IN_AUCTION"
      (myBoxes (run (initial "a" "m" "o") Scenario.ops) "USR-m")
  + count_status "SOLD"
      (myBoxes (run (initial "a" "m" "o") Scenario.ops) "USR-m")
  = length (myBoxes (run (initial "a" "m" "o") Scenario.ops) "USR-m").
Proof.
  exact (proj2 (dashboard_counts_add_up
                  (run (initial "a" "m" "o") Scenario.ops) "USR-m"
                  reachable_final)).
Defined.

(** A witness of X22, on the end-to-end scenario. *)
Lemma submitBid_click_amounts_witness :
  Bid.total Desk.form_bid = plain_sum (Bid.lineOffers Desk.form_bid).
Proof.
  refine (proj2 (proj2 (submitBid_click_amounts Scenario.listed Scenario.submitted
            "d1" "USR-o" "AUC-a1" Desk.inputs Desk.form_bid _))).
  vm_compute. reflexivity.
Defined.

(** A witness of X23, on the end-to-end scenario. *)
Lemma new_bid_reaches_seller_witness :
  In Scenario.submitted_bid
     (bidsReceived Scenario.submitted (Auction.sellerId Scenario.listed_auction)).
Proof.
  refine (proj1 (new_bid_reaches_seller Scenario.listed Scenario.submitted "d1"
            "USR-o" "AUC-a1" Scenario.offers Scenario.listed_auction
            Scenario.submitted_bid _ _)).
  - vm_compute. reflexivity.
  - vm_compute. reflexivity.
Defined.

(** A witness of X24, on the end-to-end scenario. *)
Lemma createAuction_click_succeeds_witness :
  exists db' auction,
    createAuction_click Scenario.finished "a1" "USR-m" Desk.ticked "" [] true []
    = (db', Some (Ok auction))
    /\ Auction.sellerId auction = "USR-m".
Proof.
  destruct (createAuction_click_succeeds Scenario.finished "a1" "USR-m" ""
              Desk.ticked [] [] true) as [_ H].
  - vm_compute. repeat constructor. intros [].
  - destruct H as (db' & a & H1 & _ & H3 & _).
    + vm_compute. discriminate.
    + exists db', a. split; [exact H1|exact H3].
Defined.


(** A witness of X26, on the end-to-end scenario. *)
Lemma approval_queue_witness :
  In (Bid.set_sellerApproved true
        (Bid.set_status "SELLER_ACCEPTED" Scenario.submitted_bid))
     (pendingApprovals Scenario.accepted).
Proof.
  refine (proj1 (approval_queue Scenario.submitted "BID-d1"
                   Scenario.submitted_bid _ _) Scenario.accepted _ _).
  - vm_compute. repeat constructor. intros [].
  - vm_compute. reflexivity.
  - vm_compute. reflexivity.
Defined.

(** A witness of X28, on the end-to-end scenario. *)
Lemma sold_auction_stays_sold_witness :
  exists auction',
    find_auction (run (run Scenario.start Scenario.ops)
                      [SubmitBid "d9" "USR-o" "AUC-a1" Scenario.offers])
                 "AUC-a1" = Some auction'
    /\ Auction.status auction' = "SOLD".
Proof.
  destruct (sold_auction_stays_sold (run Scenario.start Scenario.ops)
              [SubmitBid "d9" "USR-o" "AUC-a1" Scenario.offers] "AUC-a1"
              (Auction.set_status "SOLD" Scenario.auction))
    as (a & H1 & H2 & _).
  - vm_compute. reflexivity.
  - reflexivity.
  - exists a. split; assumption.
Defined.
